(** * PDF_to_MD: request encoder and response renderers

    A shallow embedding of [src/PDF_to_MD.py]: the data-URL encoder
    ([pdf_bytes_to_data_url]), the Markdown renderer ([response_to_markdown]),
    the DOCX renderer ([response_to_docx_bytes]) and the conversion logic of
    the Streamlit script, together with the Python built-ins they rely on
    ([str.strip], [str.join], [str.splitlines], [str(int)], [base64]). *)

From Stdlib Require Import List ZArith NArith Lia Bool String Ascii DecimalString.
From Stdlib Require Import Strings.Byte.
Import ListNotations.

Set Implicit Arguments.

(** ** Python strings

    A Python [str] is a sequence of Unicode code points; a code point is a
    natural number.  The literals of the source are ASCII and are written
    with [py], which reads the escape [\n] the way Python's lexer does. *)

Module PyStr.

Definition char := N.
Definition str := list char.

Fixpoint unescape (s : list ascii) : str :=
  match s with
  | [] => []
  | a :: r =>
      match r with
      | b :: r' =>
          if (Ascii.eqb a "\" && Ascii.eqb b "n")%bool
          then 10%N :: unescape r'
          else N_of_ascii a :: unescape r
      | [] => [N_of_ascii a]
      end
  end.

Definition py (s : string) : str := unescape (list_ascii_of_string s).

Definition nl : char := 10%N.

(** [Py_UNICODE_ISSPACE]: the code points [str.strip()] removes. *)
Definition is_space (c : char) : bool :=
  ((0x09 <=? c) && (c <=? 0x0D) || (0x1C <=? c) && (c <=? 0x1F)
   || (c =? 0x20) || (c =? 0x85) || (c =? 0xA0) || (c =? 0x1680)
   || (0x2000 <=? c) && (c <=? 0x200A)
   || (c =? 0x2028) || (c =? 0x2029) || (c =? 0x202F) || (c =? 0x205F)
   || (c =? 0x3000))%N%bool.

(** [Py_UNICODE_ISLINEBREAK]: the line boundaries of [str.splitlines()]. *)
Definition is_linebreak (c : char) : bool :=
  ((0x0A <=? c) && (c <=? 0x0D) || (0x1C <=? c) && (c <=? 0x1E)
   || (c =? 0x85) || (c =? 0x2028) || (c =? 0x2029))%N%bool.

Fixpoint lstrip (s : str) : str :=
  match s with
  | c :: s' => if is_space c then lstrip s' else s
  | [] => []
  end.

Definition rstrip (s : str) : str := rev (lstrip (rev s)).

(** [s.strip()] *)
Definition strip (s : str) : str := rstrip (lstrip s).

(** [sep.join(parts)] *)
Fixpoint join (sep : str) (parts : list str) : str :=
  match parts with
  | [] => []
  | p :: ps =>
      match ps with
      | [] => p
      | _ :: _ => p ++ sep ++ join sep ps
      end
  end.

(** [s.splitlines()]: [cur] holds the current line, reversed.  A line ends
    at a line boundary ([\r\n] counts as one) and a last line without a
    boundary is kept only if it is not empty. *)
Fixpoint splitlines_from (cur : str) (s : str) : list str :=
  match s with
  | [] => match cur with [] => [] | _ :: _ => [rev cur] end
  | c :: rest =>
      if is_linebreak c then
        rev cur ::
        match rest with
        | c' :: rest' =>
            if ((c =? 0x0D) && (c' =? 0x0A))%N%bool
            then splitlines_from [] rest'
            else splitlines_from [] rest
        | [] => splitlines_from [] rest
        end
      else splitlines_from (c :: cur) rest
  end.

Definition splitlines (s : str) : list str := splitlines_from [] s.

(** [str(n)] for an [int]: decimal digits, with a minus sign below zero. *)
Definition str_of_int (n : Z) : str :=
  py (NilZero.string_of_int (Z.to_int n)).

(** [s.split("\n")]: the lines of a Markdown text. *)
Fixpoint split_nl (s : str) : list str :=
  match s with
  | [] => [[]]
  | c :: rest =>
      if (c =? nl)%N then [] :: split_nl rest
      else
        match split_nl rest with
        | line :: lines => (c :: line) :: lines
        | [] => [[c]]
        end
  end.

(** [s.startswith(p)] *)
Fixpoint startswith (p s : str) : bool :=
  match p, s with
  | [], _ => true
  | a :: p', b :: s' => (a =? b)%N && startswith p' s'
  | _ :: _, [] => false
  end.

(** [s.count(p)] for a pattern that cannot overlap itself: the positions
    of [s] at which [p] starts. *)
Fixpoint count_sub (p s : str) : nat :=
  match s with
  | [] => 0
  | _ :: s' => (if startswith p s then 1 else 0) + count_sub p s'
  end.

End PyStr.
Import PyStr.
Arguments py s%_string.

(** ** Exceptions and results *)

Inductive exn : Type :=
| RuntimeError (msg : str)
| NameError (name : str)
| ValueError (msg : str)
| BinasciiError (msg : str)
| UnicodeDecodeError
| CollaboratorError (detail : str)  (* raised inside python-docx or the Mistral client *)
| RerunException.                   (* raised by [st.rerun()] to restart the script *)

Inductive result (A : Type) : Type :=
| Ok (a : A)
| Raise (e : exn).
Arguments Ok {A} a.
Arguments Raise {A} e.

(** A computation over a mutable object of type [S] that may raise: the
    object keeps what was done to it before the exception. *)
Module Eff.

Definition M (S A : Type) : Type := S -> S * result A.

Definition ret {S A} (a : A) : M S A := fun s => (s, Ok a).

Definition bind {S A B} (m : M S A) (k : A -> M S B) : M S B :=
  fun s =>
    match m s with
    | (s', Ok a) => k a s'
    | (s', Raise e) => (s', Raise e)
    end.

Definition lift {S A} (r : result A) : M S A := fun s => (s, r).

(** [try: m  except Exception: h] *)
Definition try_except {S A} (m : M S A) (h : exn -> M S A) : M S A :=
  fun s =>
    match m s with
    | (s', Ok a) => (s', Ok a)
    | (s', Raise e) => h e s'
    end.

(** [for a in l: f a] *)
Fixpoint for_each {S A} (f : A -> M S unit) (l : list A) : M S unit :=
  match l with
  | [] => ret tt
  | a :: l' => bind (f a) (fun _ => for_each f l')
  end.

Declare Scope eff_scope.
Delimit Scope eff_scope with eff.
Notation "x <- m ;; k" := (bind m (fun x => k))
  (at level 61, m at next level, right associativity) : eff_scope.
Notation "m ;; k" := (bind m (fun _ => k))
  (at level 61, right associativity) : eff_scope.

End Eff.
Import Eff.
Open Scope eff_scope.

(** ** Data model: the OCR response *)

Record ImageResult : Type := { image_base64 : option str }.

Record PageResult : Type := {
  index : Z;
  markdown : option str;
  images : option (list ImageResult)
}.

Record OCRResponse : Type := { pages : list PageResult }.

(** [getattr(p, "images", []) or []] *)
Definition images_or_empty (p : PageResult) : list ImageResult :=
  match images p with
  | Some l => l
  | None => []
  end.

(** ** Base64 and UTF-8 (Python's [base64] module and [bytes.decode]) *)

Module Base64.

Definition b64_alphabet : list byte :=
  list_byte_of_string
    "ABCDEFGHIJKLMNOPQRSTUVWXYZabcdefghijklmnopqrstuvwxyz0123456789+/".

Definition BASE64_PAD : byte := "="%byte.

(** [table_b2a_base64] *)
Definition b2a (sextet : N) : byte := nth (N.to_nat sextet) b64_alphabet "A"%byte.

(** [table_a2b_base64]: the sextet of a character of the alphabet. *)
Fixpoint index_of (c : byte) (l : list byte) (i : N) : option N :=
  match l with
  | [] => None
  | x :: l' => if Byte.eqb x c then Some i else index_of c l' (i + 1)
  end.

Definition a2b (c : byte) : option N := index_of c b64_alphabet 0.

(** A store into an [unsigned char]. *)
Definition to_byte (n : N) : byte :=
  match Byte.of_N (n mod 256) with
  | Some b => b
  | None => "000"%byte
  end.

(** [base64.b64encode]: RFC 4648, three bytes to four characters, the last
    group padded with [=]. *)
Fixpoint b64encode (data : list byte) : list byte :=
  match data with
  | [] => []
  | x1 :: r1 =>
      let b1 := Byte.to_N x1 in
      match r1 with
      | [] => [b2a (b1 / 4); b2a ((b1 mod 4) * 16); BASE64_PAD; BASE64_PAD]
      | x2 :: r2 =>
          let b2 := Byte.to_N x2 in
          match r2 with
          | [] =>
              [b2a (b1 / 4); b2a ((b1 mod 4) * 16 + b2 / 16);
               b2a ((b2 mod 16) * 4); BASE64_PAD]
          | x3 :: r3 =>
              let b3 := Byte.to_N x3 in
              b2a (b1 / 4) :: b2a ((b1 mod 4) * 16 + b2 / 16)
              :: b2a ((b2 mod 16) * 4 + b3 / 64) :: b2a (b3 mod 64)
              :: b64encode r3
          end
      end
  end.

(** [binascii.a2b_base64] in its default, non-strict mode: characters
    outside the alphabet are skipped, a complete pad sequence ends the
    input, and leftover characters are an error. *)
Fixpoint a2b_base64_loop (quad_pos leftchar pads : N) (bin_data : list byte)
    (ascii_data : list byte) : result (list byte) :=
  match ascii_data with
  | [] =>
      if (quad_pos =? 0)%N then Ok (rev bin_data)
      else if (quad_pos =? 1)%N then
        Raise (BinasciiError (py "Invalid base64-encoded string: number of data characters cannot be 1 more than a multiple of 4"))
      else Raise (BinasciiError (py "Incorrect padding"))
  | this_ch :: rest =>
      if Byte.eqb this_ch BASE64_PAD then
        if (2 <=? quad_pos)%N then
          if (4 <=? quad_pos + (pads + 1))%N then Ok (rev bin_data)
          else a2b_base64_loop quad_pos leftchar (pads + 1) bin_data rest
        else a2b_base64_loop quad_pos leftchar pads bin_data rest
      else
        match a2b this_ch with
        | None => a2b_base64_loop quad_pos leftchar pads bin_data rest
        | Some v =>
            if (quad_pos =? 0)%N then
              a2b_base64_loop 1 v 0 bin_data rest
            else if (quad_pos =? 1)%N then
              a2b_base64_loop 2 (N.land v 0x0f) 0
                (to_byte (N.lor (N.shiftl leftchar 2) (N.shiftr v 4)) :: bin_data) rest
            else if (quad_pos =? 2)%N then
              a2b_base64_loop 3 (N.land v 0x03) 0
                (to_byte (N.lor (N.shiftl leftchar 4) (N.shiftr v 2)) :: bin_data) rest
            else
              a2b_base64_loop 0 0 0
                (to_byte (N.lor (N.shiftl leftchar 6) v) :: bin_data) rest
        end
  end.

Definition a2b_base64 (data : list byte) : result (list byte) :=
  a2b_base64_loop 0 0 0 [] data.

(** [s.encode("ascii")] as [base64._bytes_from_decode_data] uses it. *)
Fixpoint encode_ascii (s : str) : result (list byte) :=
  match s with
  | [] => Ok []
  | c :: s' =>
      if (c <? 128)%N then
        match encode_ascii s' with
        | Ok bs => Ok (to_byte c :: bs)
        | Raise e => Raise e
        end
      else Raise (ValueError (py "string argument should contain only ASCII characters"))
  end.

(** [base64.b64decode(s)] on a [str] *)
Definition b64decode (s : str) : result (list byte) :=
  match encode_ascii s with
  | Ok bs => a2b_base64 bs
  | Raise e => Raise e
  end.

Definition is_continuation (b : N) : bool := ((0x80 <=? b) && (b <=? 0xBF))%N.

Definition cons_ok (c : char) (r : result str) : result str :=
  match r with
  | Ok s => Ok (c :: s)
  | Raise e => Raise e
  end.

(** [bs.decode("utf-8")]: strict UTF-8, no overlong forms, no surrogates. *)
Fixpoint decode_utf8 (bs : list byte) : result str :=
  match bs with
  | [] => Ok []
  | x0 :: r0 =>
      let b0 := Byte.to_N x0 in
      if (b0 <? 0x80)%N then cons_ok b0 (decode_utf8 r0)
      else
        match r0 with
        | [] => Raise UnicodeDecodeError
        | x1 :: r1 =>
            let b1 := Byte.to_N x1 in
            if ((0xC2 <=? b0) && (b0 <=? 0xDF))%N then
              if is_continuation b1
              then cons_ok ((b0 - 0xC0) * 64 + (b1 - 0x80))%N (decode_utf8 r1)
              else Raise UnicodeDecodeError
            else
              match r1 with
              | [] => Raise UnicodeDecodeError
              | x2 :: r2 =>
                  let b2 := Byte.to_N x2 in
                  if ((0xE0 <=? b0) && (b0 <=? 0xEF))%N then
                    if (is_continuation b1 && is_continuation b2
                        && negb ((b0 =? 0xE0) && (b1 <? 0xA0))
                        && negb ((b0 =? 0xED) && (0xA0 <=? b1)))%N
                    then cons_ok ((b0 - 0xE0) * 4096 + (b1 - 0x80) * 64
                                  + (b2 - 0x80))%N (decode_utf8 r2)
                    else Raise UnicodeDecodeError
                  else
                    match r2 with
                    | [] => Raise UnicodeDecodeError
                    | x3 :: r3 =>
                        let b3 := Byte.to_N x3 in
                        if ((0xF0 <=? b0) && (b0 <=? 0xF4)
                            && is_continuation b1 && is_continuation b2
                            && is_continuation b3
                            && negb ((b0 =? 0xF0) && (b1 <? 0x90))
                            && negb ((b0 =? 0xF4) && (0x90 <=? b1)))%N
                        then cons_ok ((b0 - 0xF0) * 262144 + (b1 - 0x80) * 4096
                                      + (b2 - 0x80) * 64 + (b3 - 0x80))%N
                               (decode_utf8 r3)
                        else Raise UnicodeDecodeError
                    end
              end
        end
  end.

End Base64.
Import Base64.

(** ** Helpers: the API key *)





(** Python's truth value of an optional string. *)
Definition truthy (o : option str) : bool :=
  match o with
  | Some (_ :: _) => true
  | _ => false
  end.

(** ** Request encoder *)

(** [pdf_bytes_to_data_url], lines 32-34 *)
Definition pdf_bytes_to_data_url (pdf_bytes : list byte) : result str :=
  match decode_utf8 (b64encode pdf_bytes) with
  | Ok b64 => Ok (py "data:application/pdf;base64," ++ b64)
  | Raise e => Raise e
  end.

(** ** Markdown renderer *)

Definition page_header (p : PageResult) : str :=
  py "\n\n---\n\n### Page " ++ str_of_int (index p + 1) ++ py "\n\n".

Definition image_embed (p : PageResult) (i : Z) (b64 : str) : str :=
  py "\n![page " ++ str_of_int (index p + 1) ++ py " image " ++ str_of_int i
  ++ py "](data:image/png;base64," ++ b64 ++ py ")\n".

(** The loop of lines 59-63: [i] is the counter of [enumerate]. *)
Fixpoint append_images (p : PageResult) (i : Z) (ims : list ImageResult)
    (md_parts : list str) : list str :=
  match ims with
  | [] => md_parts
  | im :: rest =>
      append_images p (i + 1) rest
        match image_base64 im with
        | Some ((_ :: _) as b64) => md_parts ++ [image_embed p i b64]
        | _ => md_parts
        end
  end.

(** The body of the loop of lines 49-63. *)
Definition append_page (md_parts : list str) (p : PageResult) : list str :=
  let md_parts := md_parts ++ [page_header p] in
  let md_parts :=
    match markdown p with
    | Some ((_ :: _) as text) => md_parts ++ [text]
    | _ => md_parts
    end in
  match images_or_empty p with
  | [] => md_parts
  | (_ :: _) as ims =>
      append_images p 1 ims (md_parts ++ [py "\n\n#### Extracted images\n"])
  end.

Definition md_parts_of (resp : OCRResponse) : list str :=
  fold_left append_page (pages resp) [].

(** [response_to_markdown], lines 46-64 *)
Definition response_to_markdown (resp : OCRResponse) : str :=
  strip (join (py "\n") (md_parts_of resp)).

(** ** DOCX renderer

    python-docx is a collaborator: a document is the log of the calls made
    on it, each with its outcome, and any call may raise.  The saved file
    holds the calls that returned, in order. *)

Inductive DocCall : Type :=
| add_heading (text : str) (level : Z)
| add_paragraph (text : str)
| add_picture (image : list byte) (width : option Z)
| add_page_break.

Inductive DocEvent : Type :=
| Returned (c : DocCall)
| Failed (c : DocCall).

Definition DocxDocument : Type := list DocEvent.

Definition returned (ev : DocEvent) : list DocCall :=
  match ev with
  | Returned c => [c]
  | Failed _ => []
  end.

(** What [doc.save] writes. *)
Definition body (doc : DocxDocument) : list DocCall := flat_map returned doc.

(** [docx.shared.Inches]: a length in English Metric Units. *)
Definition Inches (n : Z) : Z := (n * 914400)%Z.

Definition is_page_break (c : DocCall) : bool :=
  match c with add_page_break => true | _ => false end.

Definition is_picture (c : DocCall) : bool :=
  match c with add_picture _ _ => true | _ => false end.

Definition is_paragraph (c : DocCall) : bool :=
  match c with add_paragraph _ => true | _ => false end.

Definition is_unsized_attempt (ev : DocEvent) : bool :=
  match ev with
  | Returned (add_picture _ None) | Failed (add_picture _ None) => true
  | _ => false
  end.

Section Runtime.

(** Whether [from docx import ...] succeeded (lines 9-15). *)
Variable HAS_PYTHON_DOCX : bool.

(** python-docx: [None] when a call returns, the detail of the exception
    when it raises. *)
Variable docx_raises : DocCall -> option str.

(** A call on [doc]. *)
Definition doc_call (c : DocCall) : M DocxDocument unit :=
  fun doc =>
    match docx_raises c with
    | None => (doc ++ [Returned c], Ok tt)
    | Some detail => (doc ++ [Failed c], Raise (CollaboratorError detail))
    end.

(** Lines 79-87, one image. *)
Definition embed_image (im : ImageResult) : M DocxDocument unit :=
  match image_base64 im with
  | Some ((_ :: _) as b64) =>
      bio <- lift (b64decode b64) ;;
      try_except (doc_call (add_picture bio (Some (Inches 6))))
        (fun _ => doc_call (add_picture bio None))
  | _ => ret tt
  end.

(** Lines 72-89, one page. *)
Definition render_page (p : PageResult) : M DocxDocument unit :=
  doc_call (add_heading (py "Page " ++ str_of_int (index p + 1)) 2) ;;
  match markdown p with
  | Some ((_ :: _) as text) =>
      for_each (fun line => doc_call (add_paragraph line)) (splitlines text)
  | _ => ret tt
  end ;;
  for_each embed_image (images_or_empty p) ;;
  doc_call add_page_break.

Definition render_pages (resp : OCRResponse) : M DocxDocument unit :=
  for_each render_page (pages resp).

(** [response_to_docx_bytes], lines 67-92 *)
Definition response_to_docx_bytes (resp : OCRResponse) : result (list DocCall) :=
  if negb HAS_PYTHON_DOCX then
    Raise (RuntimeError (py "python-docx is not installed. Run: pip install python-docx"))
  else
    match render_pages resp [] with
    | (doc, Ok _) => Ok (body doc)
    | (_, Raise e) => Raise e
    end.

(** ** The Streamlit script *)

Inductive Artifact : Type :=
| Utf8 (text : str)               (* [text.encode("utf-8")] *)
| DocxFile (doc : list DocCall).

Inductive Widget : Type :=
| st_warning (msg : str)
| st_error (msg : str)
| st_exception (e : exn)
| st_subheader (msg : str)
| st_markdown (text : str)
| welcome_message
| download_button (label : str) (data : Artifact) (file_name mime : str)
| progress_set (percent : Z)      (* [progress.progress(percent / 100)] *)
| progress_empty
| status_info (msg : str)
| status_success (msg : str)
| status_empty
| footer.

(** [st.session_state]: a key that is absent is [None]; the bytes of a
    DOCX file stand for the document they hold and are never empty. *)
Record Session : Type := {
  md : option str;
  docx_bytes : option (list DocCall)
}.

Record App : Type := {
  session_state : Session;
  screen : list Widget
}.

Record Inputs : Type := {
  api_key : option str;            (* [get_api_key()] *)
  uploaded : option (list byte);   (* [st.file_uploader] *)
  want_docx : bool;                (* [st.checkbox] *)
  run : bool                       (* [st.button("Start OCR")] *)
}.

(** The Mistral client, [client.ocr.process]: from the API key, the
    document URL and [include_image_base64] to the response or the
    exception it raises. *)
Variable Mistral : str -> str -> bool -> result OCRResponse.

(** How many times the script finds the future not done (line 223). *)
Variable polls : nat.

Definition show (w : Widget) : M App unit :=
  fun app =>
    ({| session_state := session_state app; screen := screen app ++ [w] |}, Ok tt).

Definition set_session (f : Session -> Session) : M App unit :=
  fun app =>
    ({| session_state := f (session_state app); screen := screen app |}, Ok tt).

Definition get_session : M App Session :=
  fun app => (app, Ok (session_state app)).

(** [run_ocr], lines 37-43 *)
Definition run_ocr (client : str -> bool -> result OCRResponse)
    (pdf_bytes : list byte) (include_images : bool) : result OCRResponse :=
  match pdf_bytes_to_data_url pdf_bytes with
  | Ok data_url => client data_url include_images
  | Raise e => Raise e
  end.

(** Lines 222-227. *)
Fixpoint progress_loop (n : nat) (pct : Z) : M App unit :=
  match n with
  | O => ret tt
  | S n' =>
      let pct := ((pct + 3) mod 100)%Z in
      show (progress_set pct) ;;
      show (status_info (py "Processing your PDF with Mistral OCR...")) ;;
      progress_loop n' pct
  end.

(** Lines 129-139: the left column. *)
Definition left_column (inp : Inputs) : M App unit :=
  match api_key inp with
  | Some (_ :: _) => ret tt
  | _ => show (st_warning (py "Please set your Mistral API key in `st.secrets['MISTRAL_API_KEY']` or as the environment variable `MISTRAL_API_KEY`."))
  end.

(** Lines 142-184: the right column. *)
Definition right_column : M App unit :=
  s <- get_session ;;
  match md s with
  | Some text =>
      show (st_subheader (py "Conversion Complete!")) ;;
      show (download_button (py "Download Markdown (.md)") (Utf8 text)
              (py "ocr_output.md") (py "text/markdown")) ;;
      match docx_bytes s with
      | Some doc =>
          show (download_button (py "Download Word (.docx)") (DocxFile doc)
                  (py "ocr_output.docx")
                  (py "application/vnd.openxmlformats-officedocument.wordprocessingml.document"))
      | None => ret tt
      end ;;
      show (st_subheader (py "Preview (Markdown)")) ;;
      show (st_markdown text)
  | None => show welcome_message
  end.

(** Lines 201-254: the branch [if is_ready_to_run]. *)
Definition convert (key : str) (pdf_bytes : list byte) (docx : bool) : M App unit :=
  set_session (fun _ => {| md := None; docx_bytes := None |}) ;;
  let client := Mistral key in
  show (progress_set 0) ;;
  progress_loop polls 0 ;;
  resp <- try_except
            (r <- lift (run_ocr client pdf_bytes true) ;; ret (Some r))
            (fun e =>
               show progress_empty ;;
               show status_empty ;;
               show (st_error (py "An unexpected error occurred while calling Mistral OCR.")) ;;
               show (st_exception e) ;;
               ret None) ;;
  show (progress_set 100) ;;
  show (status_success (py "Done! Rendering results...")) ;;
  resp <- match resp with
          | Some r => ret r
          | None => lift (Raise (NameError (py "resp")))
          end ;;
  let text := response_to_markdown resp in
  set_session (fun s => {| md := Some text; docx_bytes := docx_bytes s |}) ;;
  (if docx then
     if negb HAS_PYTHON_DOCX then
       show (st_error (py "`python-docx` is not installed. Run: `pip install python-docx`"))
     else
       doc <- lift (response_to_docx_bytes resp) ;;
       set_session (fun s => {| md := md s; docx_bytes := Some doc |})
   else ret tt) ;;
  lift (Raise RerunException).

(** Lines 187-254: the conversion logic. *)
Definition conversion_logic (inp : Inputs) : M App unit :=
  if run inp then
    match uploaded inp with
    | Some _ => ret tt
    | None => show (st_error (py "Please upload a PDF first."))
    end ;;
    match api_key inp with
    | Some (_ :: _) => ret tt
    | _ => show (st_error (py "No API key found. Add it to Streamlit Secrets or your environment."))
    end ;;
    match uploaded inp, api_key inp with
    | Some pdf_bytes, Some ((_ :: _) as key) => convert key pdf_bytes (want_docx inp)
    | _, _ => ret tt
    end
  else ret tt.

(** One run of the script on the session left by the previous run. *)
Definition script (inp : Inputs) : M App unit :=
  left_column inp ;;
  right_column ;;
  conversion_logic inp ;;
  show footer.

Definition run_script (inp : Inputs) (s : Session) : App * result unit :=
  script inp {| session_state := s; screen := [] |}.

End Runtime.

(** * Vocabulary of the statements *)

(** ** Finite checks *)

(** The numbers below [n], for properties checked by enumeration. *)
Definition below (n : nat) : list N := map N.of_nat (seq 0 n).

(** The decoding table inverts the encoding table at [k], whose character
    is ASCII and is not the pad. *)

Definition sextet_ok (k : N) : bool :=
  match a2b (b2a k) with
  | Some v => (v =? k)%N
  | None => false
  end
  && negb (Byte.eqb (b2a k) BASE64_PAD)
  && (Byte.to_N (b2a k) <? 128)%N.

(** The bit operations of the decoder undo the arithmetic of the encoder. *)
Definition regroup_ok (a b : N) : bool :=
  ((N.lor (N.shiftl (a / 4) 2) (N.shiftr ((a mod 4) * 16 + b / 16) 4) =? a)
   && (N.land ((a mod 4) * 16 + b / 16) 0x0f =? b / 16)
   && (N.lor (N.shiftl (a / 16) 4) (N.shiftr ((a mod 16) * 4 + b / 64) 2) =? a)
   && (N.land ((a mod 16) * 4 + b / 64) 0x03 =? b / 64)
   && (N.lor (N.shiftl (a / 64) 6) (a mod 64) =? a)
   && (N.lor (N.shiftl (a / 4) 2) (N.shiftr ((a mod 4) * 16) 4) =? a)
   && (N.lor (N.shiftl (a / 16) 4) (N.shiftr ((a mod 16) * 4) 2) =? a)
   && (a / 4 <? 64) && ((a mod 4) * 16 + b / 16 <? 64)
   && ((a mod 16) * 4 + b / 64 <? 64) && (a mod 64 <? 64)
   && ((a mod 4) * 16 <? 64) && ((a mod 16) * 4 <? 64))%N.

(** ** The fragments of a page in the Markdown output *)

Definition text_part (p : PageResult) : list str :=
  match markdown p with
  | Some ((_ :: _) as text) => [text]
  | _ => []
  end.

Definition image_part (p : PageResult) (i : Z) (im : ImageResult) : list str :=
  match image_base64 im with
  | Some ((_ :: _) as b64) => [image_embed p i b64]
  | _ => []
  end.

Fixpoint image_parts (p : PageResult) (i : Z) (ims : list ImageResult) : list str :=
  match ims with
  | [] => []
  | im :: rest => image_part p i im ++ image_parts p (i + 1) rest
  end.

Definition images_part (p : PageResult) : list str :=
  match images_or_empty p with
  | [] => []
  | (_ :: _) as ims => py "\n\n#### Extracted images\n" :: image_parts p 1 ims
  end.

Definition page_parts (p : PageResult) : list str :=
  page_header p :: text_part p ++ images_part p.

(** ** Characters and lines *)

Definition plain (a : ascii) : bool := negb (Ascii.eqb a "\").

Definition decimal_char (c : char) : bool :=
  ((48 <=? c) && (c <=? 57) || (c =? 45))%N.

Definition decimal_ascii (a : ascii) : bool :=
  plain a && decimal_char (N_of_ascii a).

Definition no_newline (s : str) : bool := forallb (fun c => negb (c =? nl)%N) s.

(** Appending a character that is not a newline extends the last line. *)
Fixpoint snoc_last (x : char) (ls : list str) : list str :=
  match ls with
  | [] => []
  | l :: t =>
      match t with
      | [] => [l ++ [x]]
      | _ :: _ => l :: snoc_last x t
      end
  end.

(** Lines that start with [p] and do not end in white space. *)
Definition tidy (p : str) (ls : list str) : Prop :=
  forall l, In l (filter (startswith p) ls) -> is_space (last l 0%N) = false.

(** The lines of a Markdown text that start a [Page] heading of level 3. *)
Definition heading_lines (s : str) : list str :=
  filter (startswith (py "### Page")) (split_nl s).

Definition page_heading (k : Z) : str := py "### Page " ++ str_of_int k.

(** [s] has [p] as a substring. *)
Definition contains (p s : str) : Prop := exists a b, s = a ++ p ++ b.

Definition no_linebreak (l : str) : bool := forallb (fun c => negb (is_linebreak c)) l.

(** ** The DOCX document *)

Definition lacks_data (im : ImageResult) : bool :=
  match image_base64 im with
  | Some (_ :: _) => false
  | _ => true
  end.

(** The call of an event, returned or not. *)
Definition call_of (ev : DocEvent) : DocCall :=
  match ev with
  | Returned c | Failed c => c
  end.

Definition picture_event (ev : DocEvent) : bool := is_picture (call_of ev).

(** [m] appends [evs] to any document and ends in [res]. *)
Definition logs (m : M DocxDocument unit) (evs : list DocEvent)
    (res : result unit) : Prop :=
  forall doc, m doc = (doc ++ evs, res).

(** The event and the result of one call. *)
Definition call_event (docx_raises : DocCall -> option str) (c : DocCall) : DocEvent :=
  match docx_raises c with
  | None => Returned c
  | Some _ => Failed c
  end.

Definition call_result (docx_raises : DocCall -> option str) (c : DocCall)
    : result unit :=
  match docx_raises c with
  | None => Ok tt
  | Some detail => Raise (CollaboratorError detail)
  end.

(** A page without its images. *)
Definition drop_images (p : PageResult) : PageResult :=
  {| index := index p; markdown := markdown p; images := None |}.

(** What the renderer can raise once python-docx is there. *)
Definition render_error (e : exn) : bool :=
  match e with
  | ValueError _ | BinasciiError _ | CollaboratorError _ => true
  | _ => false
  end.

Definition render_result (r : result unit) : Prop :=
  match r with
  | Ok _ => True
  | Raise e => render_error e = true
  end.

(** The lines of a page: [splitlines] of its text, none without text. *)
Definition page_lines (p : PageResult) : list str :=
  match markdown p with
  | Some text => splitlines text
  | None => []
  end.

Definition page_title (p : PageResult) : DocCall :=
  add_heading (py "Page " ++ str_of_int (index p + 1)) 2.

(** A page section of the saved document. *)
Definition page_section (p : PageResult) (pics : list DocCall) : list DocCall :=
  page_title p :: map add_paragraph (page_lines p) ++ pics ++ [add_page_break].

(** ** The screen of the script *)

(** What the polling loop shows. *)
Fixpoint progress_widgets (n : nat) (pct : Z) : list Widget :=
  match n with
  | O => []
  | S n' =>
      let pct := ((pct + 3) mod 100)%Z in
      progress_set pct
      :: status_info (py "Processing your PDF with Mistral OCR...")
      :: progress_widgets n' pct
  end.

(** What the right column shows for a session. *)
Definition right_widgets (s : Session) : list Widget :=
  match md s with
  | Some text =>
      [st_subheader (py "Conversion Complete!");
       download_button (py "Download Markdown (.md)") (Utf8 text)
         (py "ocr_output.md") (py "text/markdown")]
      ++ match docx_bytes s with
         | Some doc =>
             [download_button (py "Download Word (.docx)") (DocxFile doc)
                (py "ocr_output.docx")
                (py "application/vnd.openxmlformats-officedocument.wordprocessingml.document")]
         | None => []
         end
      ++ [st_subheader (py "Preview (Markdown)"); st_markdown text]
  | None => [welcome_message]
  end.

(** What the conversion shows before it renders. *)
Definition waiting_widgets (polls : nat) : list Widget :=
  progress_set 0 :: progress_widgets polls 0.

Definition done_widgets : list Widget :=
  [progress_set 100; status_success (py "Done! Rendering results...")].

Definition failure_widgets (e : exn) : list Widget :=
  [progress_empty; status_empty;
   st_error (py "An unexpected error occurred while calling Mistral OCR.");
   st_exception e].

Definition missing_docx_message : str :=
  py "`python-docx` is not installed. Run: `pip install python-docx`".

Definition missing_docx_error : exn :=
  RuntimeError (py "python-docx is not installed. Run: pip install python-docx").

(** ** Example inputs *)

Definition image_without_data : ImageResult := {| image_base64 := Some [] |}.

Definition blank_page (i : Z) : PageResult :=
  {| index := i; markdown := None; images := None |}.

Definition two_pages : OCRResponse :=
  {| pages := [{| index := 0; markdown := Some (py "Hello\nWorld"); images := None |};
               blank_page 1] |}.

Definition hello_world : PageResult :=
  {| index := 0; markdown := Some (py "Hello\nWorld"); images := None |}.

Definition heading_in_text : OCRResponse :=
  {| pages := [{| index := 0; markdown := Some (py "### Page 1"); images := None |}] |}.

Definition page_of_empty_images : PageResult :=
  {| index := 0; markdown := Some (py "Hello");
     images := Some [{| image_base64 := None |}; {| image_base64 := Some [] |}] |}.

Definition one_image : ImageResult := {| image_base64 := Some (py "QUJD") |}.

Definition one_image_page : OCRResponse :=
  {| pages := [{| index := 0; markdown := None; images := Some [one_image] |}] |}.

(** A python-docx none of whose calls raises, one that takes no picture,
    and one that cannot size pictures. *)
Definition accepts_all : DocCall -> option str := fun _ => None.

Definition accepts_no_picture : DocCall -> option str :=
  fun c =>
    match c with
    | add_picture _ _ => Some (py "UnrecognizedImageError")
    | _ => None
    end.

Definition cannot_size : DocCall -> option str :=
  fun c =>
    match c with
    | add_picture _ (Some _) => Some (py "ZeroDivisionError")
    | _ => None
    end.

(** The inputs of a run that starts a conversion. *)
Definition ready (key : str) (pdf_bytes : list byte) (docx : bool) : Inputs :=
  {| api_key := Some key; uploaded := Some pdf_bytes; want_docx := docx; run := true |}.

(** A Mistral client that returns [resp], and one that raises [e]. *)
Definition always_returns (resp : OCRResponse)
    : str -> str -> bool -> result OCRResponse :=
  fun _ _ _ => Ok resp.

Definition always_raises (e : exn) : str -> str -> bool -> result OCRResponse :=
  fun _ _ _ => Raise e.

(** ** The script outside a conversion *)

(** Whether the branch [if is_ready_to_run] is taken. *)
Definition ready_to_run (inp : Inputs) : bool :=
  run inp && match uploaded inp with Some _ => true | None => false end
  && truthy (api_key inp).

Definition left_widgets (inp : Inputs) : list Widget :=
  if truthy (api_key inp) then []
  else [st_warning (py "Please set your Mistral API key in `st.secrets['MISTRAL_API_KEY']` or as the environment variable `MISTRAL_API_KEY`.")].

Definition refusal_widgets (inp : Inputs) : list Widget :=
  if run inp then
    match uploaded inp with
    | Some _ => []
    | None => [st_error (py "Please upload a PDF first.")]
    end
    ++ (if truthy (api_key inp) then []
        else [st_error (py "No API key found. Add it to Streamlit Secrets or your environment.")])
  else [].

(** The values shown by the progress bar. *)
Definition percents (ws : list Widget) : list Z :=
  flat_map (fun w => match w with progress_set p => [p] | _ => [] end) ws.

(** ** Images and pictures *)

(** The data of the images that have some, in order. *)
Definition data_of (ims : list ImageResult) : list str :=
  flat_map (fun im =>
              match image_base64 im with
              | Some ((_ :: _) as b64) => [b64]
              | _ => []
              end) ims.

(** The bytes of the pictures among calls, in order. *)
Definition picture_bytes (cs : list DocCall) : list (list byte) :=
  flat_map (fun c => match c with add_picture image _ => [image] | _ => [] end) cs.

(** A picture is added at 6 inches or without a width. *)
Definition width_ok (c : DocCall) : bool :=
  match c with
  | add_picture _ (Some w) => (w =? Inches 6)%Z
  | _ => true
  end.

Definition is_heading (c : DocCall) : bool :=
  match c with add_heading _ _ => true | _ => false end.

(** The pictures [pics] of a page are those of its images [ims]. *)
Definition pictures_of (ims : list ImageResult) (pics : list DocCall) : Prop :=
  forallb is_picture pics = true
  /\ forallb width_ok pics = true
  /\ map (@Ok (list byte)) (picture_bytes pics) = map b64decode (data_of ims).

(** The image embed of the Markdown output, without the newlines around it. *)
Definition image_link (p : PageResult) (i : Z) (b64 : str) : str :=
  py "![page " ++ str_of_int (index p + 1) ++ py " image " ++ str_of_int i
  ++ py "](data:image/png;base64," ++ b64 ++ py ")".

(** A session with results of an earlier run, and the inputs of a run
    without a click. *)
Definition idle (key : option str) : Inputs :=
  {| api_key := key; uploaded := None; want_docx := false; run := false |}.

(** * Properties *)

(** ** The models of the built-ins on values computed by CPython 3.11 *)

Example strip_unicode_space :
  strip [0x20; 0x1F; 0x85; 0xA0; 97; 0x2003; 0x3000; 0x1680; 0x205F; 0x202F]%N = py "a".
Proof. reflexivity. Qed.

Example strip_keeps_zero_width_space : strip [0x200B; 97]%N = [0x200B; 97]%N.
Proof. reflexivity. Qed.

Example splitlines_trailing_newline :
  splitlines (py "a\n\nb\n") = [py "a"; py ""; py "b"].
Proof. reflexivity. Qed.

Example splitlines_carriage_returns :
  splitlines [97; 13; 98; 10; 13; 99; 13; 10; 100]%N = [py "a"; py "b"; py ""; py "c"; py "d"].
Proof. reflexivity. Qed.

Example splitlines_unicode_boundaries :
  splitlines [97; 0x0B; 98; 0x0C; 99; 0x1C; 100; 0x85; 101; 0x2028; 102; 0x1F; 103]%N
  = [py "a"; py "b"; py "c"; py "d"; py "e"; [102; 0x1F; 103]%N].
Proof. reflexivity. Qed.

Example join_newline : join (py "\n") [py "a"; py "b"; py ""] = py "a\nb\n".
Proof. reflexivity. Qed.

Example str_of_int_values :
  (str_of_int 0, str_of_int 105, str_of_int (-12)) = (py "0", py "105", py "-12").
Proof. reflexivity. Qed.

Example b64encode_padding :
  (b64encode [x4d; x61; x6e], b64encode [x4d; x61], b64encode [x4d])
  = (list_byte_of_string "TWFu", list_byte_of_string "TWE=", list_byte_of_string "TQ==").
Proof. reflexivity. Qed.

Example b64decode_skips_other_characters :
  b64decode (py "T WE=zzz") = Ok [x4d; x61].
Proof. reflexivity. Qed.

Example b64decode_pad_in_the_middle :
  (b64decode (py "T=WFu"), b64decode (py "TQ=x="), b64decode (py "TQ= ="))
  = (Ok [x4d; x61; x6e], Ok [x4d; x0c], Ok [x4d]).
Proof. reflexivity. Qed.

Example b64decode_incorrect_padding :
  b64decode (py "TQ=") = Raise (BinasciiError (py "Incorrect padding")).
Proof. reflexivity. Qed.

Example b64decode_data_uri :
  b64decode (py "data:image/png;base64,QUJD")
  = Raise (BinasciiError (py "Incorrect padding")).
Proof. reflexivity. Qed.

Example b64decode_not_ascii :
  b64decode [233]%N
  = Raise (ValueError (py "string argument should contain only ASCII characters")).
Proof. reflexivity. Qed.

Example response_to_markdown_one_image :
  response_to_markdown
    {| pages := [{| index := 0; markdown := Some (py "Hello");
                    images := Some [{| image_base64 := None |};
                                    {| image_base64 := Some (py "QUJD") |}] |}] |}
  = py "---\n\n### Page 1\n\n\nHello\n\n\n#### Extracted images\n\n\n![page 1 image 2](data:image/png;base64,QUJD)".
Proof. reflexivity. Qed.

(** ** Base64 and the request encoder *)

Section Base64Facts.

Lemma below_complete (n : nat) (k : N) : (k < N.of_nat n)%N -> In k (below n).
Proof.
  intros Hk. unfold below. apply in_map_iff. exists (N.to_nat k). split.
  - apply N2Nat.id.
  - apply in_seq. lia.
Qed.

Lemma forallb_below (n : nat) (P : N -> bool) :
  forallb P (below n) = true -> forall k, (k < N.of_nat n)%N -> P k = true.
Proof.
  intros H k Hk. rewrite forallb_forall in H. apply H, below_complete, Hk.
Qed.

Lemma forallb_below2 (n m : nat) (P : N -> N -> bool) :
  forallb (fun a => forallb (P a) (below m)) (below n) = true ->
  forall a b, (a < N.of_nat n)%N -> (b < N.of_nat m)%N -> P a b = true.
Proof.
  intros H a b Ha Hb.
  apply (forallb_below m (P a)); [|exact Hb].
  apply (forallb_below n (fun a => forallb (P a) (below m))); assumption.
Qed.

Lemma byte_bound (x : byte) : (Byte.to_N x < N.of_nat 256)%N.
Proof. pose proof (Byte.to_N_bounded x). lia. Qed.

Lemma to_byte_to_N (x : byte) : to_byte (Byte.to_N x) = x.
Proof.
  unfold to_byte. rewrite N.mod_small by (pose proof (Byte.to_N_bounded x); lia).
  now rewrite Byte.of_to_N.
Qed.

Lemma sextet_ok_all (k : N) : (k < 64)%N -> sextet_ok k = true.
Proof.
  apply (forallb_below 64 sextet_ok). vm_compute. reflexivity.
Qed.

Lemma a2b_b2a (k : N) : (k < 64)%N -> a2b (b2a k) = Some k.
Proof.
  intros Hk. pose proof (sextet_ok_all Hk) as H. unfold sextet_ok in H.
  apply andb_prop in H as [H _]. apply andb_prop in H as [H _].
  destruct (a2b (b2a k)); [|discriminate].
  apply N.eqb_eq in H. now subst.
Qed.

Lemma b2a_not_pad (k : N) : (k < 64)%N -> Byte.eqb (b2a k) BASE64_PAD = false.
Proof.
  intros Hk. pose proof (sextet_ok_all Hk) as H. unfold sextet_ok in H.
  apply andb_prop in H as [H _]. apply andb_prop in H as [_ H].
  now apply negb_true_iff in H.
Qed.

Lemma b2a_ascii (k : N) : (k < 64)%N -> (Byte.to_N (b2a k) < 128)%N.
Proof.
  intros Hk. pose proof (sextet_ok_all Hk) as H. unfold sextet_ok in H.
  apply andb_prop in H as [_ H]. now apply N.ltb_lt.
Qed.

Lemma regroup_ok_all (a b : N) :
  (a < 256)%N -> (b < 256)%N -> regroup_ok a b = true.
Proof.
  apply (forallb_below2 256 256 regroup_ok). vm_compute. reflexivity.
Qed.

Ltac regroup x y :=
  let H := fresh "R" in
  pose proof (regroup_ok_all (byte_bound x) (byte_bound y)) as H;
  unfold regroup_ok in H;
  repeat (let H' := fresh "R" in apply andb_prop in H as [H H']);
  repeat match goal with
         | R : (_ =? _)%N = true |- _ => apply N.eqb_eq in R
         | R : (_ <? _)%N = true |- _ => apply N.ltb_lt in R
         end.

(** One character of the alphabet fed to the decoder. *)
Lemma a2b_loop_data (q lc p : N) (out : list byte) (k : N) (rest : list byte) :
  (k < 64)%N ->
  a2b_base64_loop q lc p out (b2a k :: rest) =
  if (q =? 0)%N then a2b_base64_loop 1 k 0 out rest
  else if (q =? 1)%N then
    a2b_base64_loop 2 (N.land k 0x0f) 0
      (to_byte (N.lor (N.shiftl lc 2) (N.shiftr k 4)) :: out) rest
  else if (q =? 2)%N then
    a2b_base64_loop 3 (N.land k 0x03) 0
      (to_byte (N.lor (N.shiftl lc 4) (N.shiftr k 2)) :: out) rest
  else a2b_base64_loop 0 0 0 (to_byte (N.lor (N.shiftl lc 6) k) :: out) rest.
Proof.
  intros Hk. cbn [a2b_base64_loop].
  rewrite (b2a_not_pad Hk), (a2b_b2a Hk). reflexivity.
Qed.

Lemma a2b_loop_pad2 (lc : N) (out rest : list byte) :
  a2b_base64_loop 2 lc 0 out (BASE64_PAD :: BASE64_PAD :: rest) = Ok (rev out).
Proof. reflexivity. Qed.

Lemma a2b_loop_pad3 (lc : N) (out rest : list byte) :
  a2b_base64_loop 3 lc 0 out (BASE64_PAD :: rest) = Ok (rev out).
Proof. reflexivity. Qed.

Ltac rewrite_regrouped :=
  repeat match goal with R : _ = _ |- _ => rewrite R end;
  rewrite ?to_byte_to_N.

Lemma a2b_loop_encode (n : nat) :
  forall (data out : list byte) (lc p : N),
    (List.length data <= n)%nat ->
    a2b_base64_loop 0 lc p out (b64encode data) = Ok (rev out ++ data).
Proof.
  induction n as [|n IH]; intros data out lc p Hlen.
  - destruct data; [|simpl in Hlen; lia]. simpl. now rewrite app_nil_r.
  - destruct data as [|x1 [|x2 [|x3 rest]]]; cbn [b64encode].
    + simpl. now rewrite app_nil_r.
    + regroup x1 x1.
      rewrite !a2b_loop_data by assumption. cbn [N.eqb Pos.eqb].
      rewrite a2b_loop_pad2. rewrite_regrouped. reflexivity.
    + regroup x1 x2. regroup x2 x2.
      rewrite !a2b_loop_data by assumption. cbn [N.eqb Pos.eqb].
      rewrite a2b_loop_pad3. rewrite_regrouped.
      cbn [rev]. now rewrite <- !app_assoc.
    + regroup x1 x2. regroup x2 x3. regroup x3 x3.
      rewrite !a2b_loop_data by assumption. cbn [N.eqb Pos.eqb].
      rewrite_regrouped.
      rewrite IH by (simpl in Hlen; lia).
      cbn [rev]. now rewrite <- !app_assoc.
Qed.

(** Base64 text is ASCII. *)
Lemma b64encode_ascii (data : list byte) :
  Forall (fun c => (Byte.to_N c < 128)%N) (b64encode data).
Proof.
  assert (Hpad : (Byte.to_N BASE64_PAD < 128)%N) by (vm_compute; reflexivity).
  assert (H : forall n data, (List.length data <= n)%nat ->
                Forall (fun c => (Byte.to_N c < 128)%N) (b64encode data)).
  { clear data. induction n as [|n IH]; intros data Hlen.
    - destruct data; [constructor | simpl in Hlen; lia].
    - destruct data as [|x1 [|x2 [|x3 rest]]]; cbn [b64encode].
      + constructor.
      + regroup x1 x1. repeat constructor; auto using b2a_ascii.
      + regroup x1 x2. regroup x2 x2. repeat constructor; auto using b2a_ascii.
      + regroup x1 x2. regroup x2 x3. regroup x3 x3.
        repeat (constructor; [auto using b2a_ascii|]).
        apply IH. simpl in Hlen. lia. }
  apply (H (List.length data)). lia.
Qed.

Lemma decode_utf8_ascii (bs : list byte) :
  Forall (fun c => (Byte.to_N c < 128)%N) bs ->
  decode_utf8 bs = Ok (map Byte.to_N bs).
Proof.
  induction 1 as [|x bs Hx _ IH]; [reflexivity|].
  cbn [decode_utf8 map].
  apply N.ltb_lt in Hx. rewrite Hx, IH. reflexivity.
Qed.

Lemma encode_ascii_ascii (bs : list byte) :
  Forall (fun c => (Byte.to_N c < 128)%N) bs ->
  encode_ascii (map Byte.to_N bs) = Ok bs.
Proof.
  induction 1 as [|x bs Hx _ IH]; [reflexivity|].
  cbn [encode_ascii map].
  apply N.ltb_lt in Hx. rewrite Hx, IH, to_byte_to_N. reflexivity.
Qed.

End Base64Facts.

Lemma skipn_length_app (A : Type) (a b : list A) :
  skipn (List.length a) (a ++ b) = b.
Proof. induction a; simpl; auto. Qed.

(** C8: for every byte string [b], [pdf_bytes_to_data_url] returns (it never
    raises) the prefix [data:application/pdf;base64,] followed by the Base64
    text of [b], and [base64.b64decode] of that payload gives back [b]. *)
Theorem pdf_bytes_to_data_url_roundtrip (b : list byte) :
  let payload := map Byte.to_N (b64encode b) in
  pdf_bytes_to_data_url b = Ok (py "data:application/pdf;base64," ++ payload)
  /\ skipn (List.length (py "data:application/pdf;base64,"))
        (py "data:application/pdf;base64," ++ payload) = payload
  /\ b64decode payload = Ok b.
Proof.
  cbv zeta. split; [|split].
  - unfold pdf_bytes_to_data_url.
    now rewrite (decode_utf8_ascii (b64encode_ascii b)).
  - apply skipn_length_app.
  - unfold b64decode, a2b_base64.
    rewrite (encode_ascii_ascii (b64encode_ascii b)).
    exact (a2b_loop_encode b [] 0 0 (le_n (List.length b))).
Qed.

(** ** The Markdown renderer as a concatenation of page fragments *)

Lemma append_images_parts (p : PageResult) (ims : list ImageResult) :
  forall i md_parts,
    append_images p i ims md_parts = md_parts ++ image_parts p i ims.
Proof.
  induction ims as [|im rest IH]; intros i md_parts; cbn [append_images image_parts].
  - now rewrite app_nil_r.
  - rewrite IH. unfold image_part.
    destruct (image_base64 im) as [[|c b64]|];
      rewrite <- ?app_assoc; reflexivity.
Qed.

Lemma append_page_parts (md_parts : list str) (p : PageResult) :
  append_page md_parts p = md_parts ++ page_parts p.
Proof.
  unfold append_page, page_parts, text_part, images_part.
  destruct (markdown p) as [[|c text]|]; destruct (images_or_empty p) as [|im ims];
    rewrite ?append_images_parts; cbn [app]; rewrite <- ?app_assoc; reflexivity.
Qed.

Lemma fold_append_page (ps : list PageResult) :
  forall md_parts,
    fold_left append_page ps md_parts = md_parts ++ flat_map page_parts ps.
Proof.
  induction ps as [|p ps IH]; intros md_parts; cbn [fold_left flat_map].
  - now rewrite app_nil_r.
  - rewrite IH, append_page_parts, <- app_assoc. reflexivity.
Qed.

Lemma md_parts_of_pages (resp : OCRResponse) :
  md_parts_of resp = flat_map page_parts (pages resp).
Proof. unfold md_parts_of. now rewrite fold_append_page. Qed.

Unset Implicit Arguments.

(** ** Facts about the string operations *)

Section StrFacts.

Lemma unescape_plain (l : list ascii) :
  forallb plain l = true -> unescape l = map N_of_ascii l.
Proof.
  induction l as [|a l IH]; [reflexivity|].
  cbn [forallb]. intros H. apply andb_prop in H as [Ha Hl].
  cbn [unescape map]. destruct l as [|b l']; [reflexivity|].
  unfold plain in Ha. apply negb_true_iff in Ha. rewrite Ha. cbn [andb].
  now rewrite IH.
Qed.

Lemma string_of_uint_decimal (d : Decimal.uint) :
  forallb decimal_ascii (list_ascii_of_string (NilEmpty.string_of_uint d)) = true.
Proof.
  induction d; cbn [NilEmpty.string_of_uint list_ascii_of_string forallb];
    rewrite ?IHd; reflexivity.
Qed.

Lemma string_of_int_decimal (d : Decimal.signed_int) :
  forallb decimal_ascii (list_ascii_of_string (NilZero.string_of_int d)) = true.
Proof.
  destruct d as [d|d]; cbn [NilZero.string_of_int list_ascii_of_string forallb];
    destruct d; try reflexivity;
    cbn [NilZero.string_of_uint andb]; apply string_of_uint_decimal.
Qed.

Lemma str_of_int_decimal (z : Z) : forallb decimal_char (str_of_int z) = true.
Proof.
  unfold str_of_int, py.
  pose proof (string_of_int_decimal (Z.to_int z)) as H.
  rewrite unescape_plain.
  - rewrite forallb_forall in H. apply forallb_forall.
    intros c Hc. apply in_map_iff in Hc as [a [<- Ha]].
    apply H in Ha. unfold decimal_ascii in Ha. now apply andb_prop in Ha.
  - rewrite forallb_forall in H. apply forallb_forall.
    intros a Ha. apply H in Ha. unfold decimal_ascii in Ha.
    now apply andb_prop in Ha.
Qed.

Lemma decimal_no_newline (s : str) :
  forallb decimal_char s = true -> no_newline s = true.
Proof.
  unfold no_newline. rewrite !forallb_forall. intros H c Hc.
  specialize (H c Hc). unfold decimal_char in H. unfold nl.
  apply negb_true_iff, N.eqb_neq. intros ->. discriminate.
Qed.

Lemma split_nl_nonempty (s : str) : split_nl s <> [].
Proof.
  destruct s as [|c s]; cbn [split_nl]; [discriminate|].
  destruct (c =? nl)%N; [discriminate|].
  destruct (split_nl s); discriminate.
Qed.

Lemma split_nl_app (a b : str) :
  split_nl (a ++ nl :: b) = split_nl a ++ split_nl b.
Proof.
  induction a as [|c a IH]; cbn [app split_nl].
  - now rewrite N.eqb_refl.
  - destruct (c =? nl)%N; rewrite IH; [reflexivity|].
    pose proof (split_nl_nonempty a).
    destruct (split_nl a); [contradiction | reflexivity].
Qed.

Lemma split_nl_line (s : str) : no_newline s = true -> split_nl s = [s].
Proof.
  unfold no_newline.
  induction s as [|c s IH]; [reflexivity|].
  cbn [forallb split_nl]. intros H. apply andb_prop in H as [Hc Hs].
  apply negb_true_iff in Hc. rewrite Hc, (IH Hs). reflexivity.
Qed.

Lemma split_nl_snoc (x : char) (s : str) :
  (x =? nl)%N = false -> split_nl (s ++ [x]) = snoc_last x (split_nl s).
Proof.
  intros Hx. induction s as [|c s IH]; cbn [app split_nl].
  - rewrite Hx. reflexivity.
  - rewrite IH. pose proof (split_nl_nonempty s) as Hne.
    destruct (c =? nl)%N.
    + destruct (split_nl s); [contradiction | reflexivity].
    + destruct (split_nl s) as [|l [|l' t]]; [contradiction | reflexivity | reflexivity].
Qed.

Lemma startswith_snoc (x : char) (p : str) :
  p <> [] -> (last p 0 =? x)%N = false ->
  forall l, startswith p (l ++ [x]) = startswith p l.
Proof.
  induction p as [|c p IH]; [congruence|]. intros _ Hlast l.
  destruct p as [|c2 p].
  - cbn [last] in Hlast. destruct l as [|b l]; cbn [app startswith].
    + rewrite Hlast. reflexivity.
    + reflexivity.
  - destruct l as [|b l]; cbn [app startswith].
    + now rewrite andb_false_r.
    + cbn [app startswith] in IH. rewrite IH; [reflexivity | discriminate | exact Hlast].
Qed.

Lemma startswith_nil (p : str) : p <> [] -> startswith p [] = false.
Proof. destruct p; [congruence | reflexivity]. Qed.

Lemma filter_snoc_last (x : char) (p : str) (ls : list str) :
  p <> [] -> (last p 0 =? x)%N = false -> is_space x = true ->
  tidy p (snoc_last x ls) ->
  filter (startswith p) (snoc_last x ls) = filter (startswith p) ls.
Proof.
  intros Hp Hlast Hx. induction ls as [|l t IH]; [reflexivity|].
  cbn [snoc_last]. destruct t as [|l' t]; intros Htidy.
  - cbn [filter] in *. rewrite <- (startswith_snoc x p Hp Hlast l).
    destruct (startswith p (l ++ [x])) eqn:E; [|reflexivity].
    assert (Hin : In (l ++ [x]) (filter (startswith p) [l ++ [x]])).
    { cbn [filter]. rewrite E. now left. }
    apply Htidy in Hin. rewrite last_last in Hin. congruence.
  - cbn [filter] in *. rewrite IH; [reflexivity|].
    intros l0 Hl0. apply Htidy. cbn [filter].
    destruct (startswith p l); [right|]; exact Hl0.
Qed.

(** Stripping trailing white space keeps the lines that start with [p],
    when [p] and those lines do not end in white space. *)
Lemma filter_lines_rstrip (p s : str) :
  p <> [] -> is_space (last p 0%N) = false ->
  tidy p (split_nl s) ->
  filter (startswith p) (split_nl (rstrip s)) = filter (startswith p) (split_nl s).
Proof.
  intros Hp Hlast. unfold rstrip.
  rewrite <- (rev_involutive s) at 1 3.
  induction (rev s) as [|x r IH]; [reflexivity|].
  cbn [lstrip]. destruct (is_space x) eqn:Hx; [|reflexivity].
  cbn [rev]. intros Htidy.
  assert (E : filter (startswith p) (split_nl (rev r ++ [x])) =
              filter (startswith p) (split_nl (rev r))).
  { destruct (x =? nl)%N eqn:Hnl.
    - apply N.eqb_eq in Hnl. subst x.
      rewrite (split_nl_app (rev r) []), filter_app. cbn [split_nl filter].
      rewrite (startswith_nil p Hp). now rewrite app_nil_r.
    - rewrite (split_nl_snoc x _ Hnl) in *.
      apply filter_snoc_last; try assumption.
      apply N.eqb_neq. intros E. rewrite E in Hlast. congruence. }
  rewrite E. apply IH. unfold tidy. rewrite <- E. exact Htidy.
Qed.

Lemma join_cons (sep p : str) (ps : list str) :
  exists r, join sep (p :: ps) = p ++ r.
Proof.
  destruct ps as [|q ps]; cbn [join].
  - exists []. now rewrite app_nil_r.
  - eexists. reflexivity.
Qed.

Lemma filter_lines_join (p : str) (parts : list str) :
  p <> [] ->
  filter (startswith p) (split_nl (join [nl] parts)) =
  flat_map (fun part => filter (startswith p) (split_nl part)) parts.
Proof.
  intros Hp. induction parts as [|a parts IH].
  - cbn. now rewrite (startswith_nil p Hp).
  - cbn [flat_map]. rewrite <- IH. cbn [join]. destruct parts as [|b parts].
    + cbn [join split_nl filter]. rewrite (startswith_nil p Hp). now rewrite app_nil_r.
    + cbn [app]. now rewrite split_nl_app, filter_app.
Qed.

Lemma join_in (sep part : str) (parts : list str) :
  In part parts -> exists a b, join sep parts = a ++ part ++ b.
Proof.
  induction parts as [|q parts IH]; [contradiction|].
  intros [->|Hin].
  - destruct (join_cons sep part parts) as [r ->]. exists [], r. reflexivity.
  - destruct (IH Hin) as [a [b E]]. destruct parts as [|q' parts]; [contradiction|].
    cbn [join] in *. rewrite E. exists (q ++ sep ++ a), b.
    now rewrite <- !app_assoc.
Qed.

Lemma lstrip_keeps (c : char) (a r : str) :
  is_space c = false -> exists a', lstrip (a ++ c :: r) = a' ++ c :: r.
Proof.
  intros Hc. induction a as [|x a IH]; cbn [app lstrip].
  - rewrite Hc. now exists [].
  - destruct (is_space x); [exact IH|]. now exists (x :: a).
Qed.

Lemma rstrip_keeps (c : char) (a r : str) :
  is_space c = false -> exists r', rstrip (a ++ c :: r) = a ++ c :: r'.
Proof.
  intros Hc. unfold rstrip. rewrite rev_app_distr. cbn [rev].
  rewrite <- app_assoc. cbn [app].
  destruct (lstrip_keeps c (rev r) (rev a) Hc) as [r' ->].
  exists (rev r'). rewrite rev_app_distr. cbn [rev].
  rewrite rev_involutive, <- app_assoc. reflexivity.
Qed.

(** A fragment that begins and ends with characters that are not white
    space survives [strip]. *)
Lemma strip_keeps (c d : char) (a m b : str) :
  is_space c = false -> is_space d = false ->
  exists a' b', strip (a ++ c :: m ++ d :: b) = a' ++ c :: m ++ d :: b'.
Proof.
  intros Hc Hd. unfold strip.
  destruct (lstrip_keeps c a (m ++ d :: b) Hc) as [a' ->].
  replace (a' ++ c :: m ++ d :: b) with ((a' ++ c :: m) ++ d :: b)
    by (rewrite <- app_assoc; reflexivity).
  destruct (rstrip_keeps d (a' ++ c :: m) b Hd) as [b' ->].
  exists a', b'. rewrite <- app_assoc. reflexivity.
Qed.

End StrFacts.

(** ** Page headings in the Markdown output *)

Section MarkdownHeadings.

Lemma decimal_char_bound (c : char) : decimal_char c = true -> (c < 58)%N.
Proof.
  intros H. destruct (N.ltb_spec c 58) as [Hlt|Hge]; [exact Hlt|exfalso].
  unfold decimal_char in H.
  replace (c <=? 57)%N with false in H by (symmetry; apply N.leb_gt; lia).
  replace (c =? 45)%N with false in H by (symmetry; apply N.eqb_neq; lia).
  rewrite andb_false_r in H. discriminate.
Qed.

Lemma decimal_not_space (c : char) : decimal_char c = true -> is_space c = false.
Proof.
  intros H. pose proof (decimal_char_bound c H) as Hc.
  assert (Hall : forallb (fun c => implb (decimal_char c) (negb (is_space c)))
                   (below 58) = true) by (vm_compute; reflexivity).
  pose proof (@forallb_below 58 _ Hall c Hc) as Hi. cbv beta in Hi.
  rewrite H in Hi. cbn [implb] in Hi. now apply negb_true_iff.
Qed.

Lemma str_of_int_nonempty (z : Z) : str_of_int z <> [].
Proof.
  unfold str_of_int, py. intros E.
  pose proof (string_of_int_decimal (Z.to_int z)) as H.
  rewrite unescape_plain in E.
  - apply map_eq_nil in E.
    destruct z as [|q|q]; cbn in E; try discriminate;
      destruct (Pos.to_uint q); discriminate.
  - rewrite forallb_forall in H. apply forallb_forall.
    intros a Ha. apply H in Ha. unfold decimal_ascii in Ha.
    now apply andb_prop in Ha.
Qed.

Lemma last_app_nonempty (a d : str) : d <> [] -> last (a ++ d) 0%N = last d 0%N.
Proof.
  intros Hd. induction a as [|c a IH]; [reflexivity|].
  cbn [app last]. rewrite IH.
  destruct (a ++ d) eqn:E; [|reflexivity].
  apply app_eq_nil in E as [_ E]. contradiction.
Qed.

Lemma last_in (d : str) : d <> [] -> In (last d 0%N) d.
Proof.
  induction d as [|c d IH]; [congruence|]. intros _.
  destruct d as [|c' d]; [now left|]. right. apply IH. discriminate.
Qed.

Lemma page_heading_tidy (k : Z) : is_space (last (page_heading k) 0%N) = false.
Proof.
  unfold page_heading. rewrite last_app_nonempty by apply str_of_int_nonempty.
  apply decimal_not_space.
  pose proof (str_of_int_decimal k) as H. rewrite forallb_forall in H.
  apply H, last_in, str_of_int_nonempty.
Qed.

Lemma split_nl_cons_line (l b : str) :
  no_newline l = true -> split_nl (l ++ nl :: b) = l :: split_nl b.
Proof. intros H. now rewrite split_nl_app, split_nl_line. Qed.

Lemma heading_lines_header (p : PageResult) :
  heading_lines (page_header p) = [page_heading (index p + 1)].
Proof.
  unfold heading_lines, page_heading.
  change (page_header p) with
    ([] ++ nl :: [] ++ nl :: py "---" ++ nl :: [] ++ nl ::
     (py "### Page " ++ str_of_int (index p + 1)) ++ nl :: [] ++ nl :: []).
  rewrite !split_nl_cons_line; try reflexivity.
  unfold no_newline. rewrite forallb_app. cbn [andb].
  apply decimal_no_newline, str_of_int_decimal.
Qed.

Lemma heading_lines_parts (ps : list PageResult) :
  Forall (fun p => images_or_empty p = []) ps ->
  Forall (fun p => forall t, markdown p = Some t -> heading_lines t = []) ps ->
  flat_map (fun part => filter (startswith (py "### Page")) (split_nl part))
    (flat_map page_parts ps)
  = map (fun p => page_heading (index p + 1)) ps.
Proof.
  induction 1 as [|p ps Hims _ IH]; intros Htexts; [reflexivity|].
  inversion Htexts as [|? ? Ht Hts]; subst.
  cbn [flat_map map]. rewrite flat_map_app, (IH Hts).
  unfold page_parts, images_part. rewrite Hims, app_nil_r.
  cbn [flat_map]. fold (heading_lines (page_header p)).
  rewrite heading_lines_header. cbn [app]. f_equal.
  unfold text_part. destruct (markdown p) as [[|c t]|]; try reflexivity.
  cbn [flat_map]. fold (heading_lines (c :: t)).
  now rewrite (Ht (c :: t) eq_refl).
Qed.

Lemma heading_lines_lstrip_join (ps : list PageResult) :
  heading_lines (lstrip (join [nl] (flat_map page_parts ps)))
  = heading_lines (join [nl] (flat_map page_parts ps)).
Proof.
  destruct ps as [|p ps]; [reflexivity|].
  destruct (join_cons [nl] (page_header p)
              ((text_part p ++ images_part p) ++ flat_map page_parts ps)) as [r E].
  change (join [nl] (flat_map page_parts (p :: ps))) with
    (join [nl] (page_header p :: (text_part p ++ images_part p) ++ flat_map page_parts ps)).
  rewrite E. reflexivity.
Qed.

Lemma seq_headings (f : Z -> str) (ps : list PageResult) :
  map index ps = map Z.of_nat (seq 0 (List.length ps)) ->
  map (fun p => f (index p + 1)%Z) ps
  = map (fun k => f (Z.of_nat k)) (seq 1 (List.length ps)).
Proof.
  intros H.
  rewrite <- (map_map index (fun i => f (i + 1)%Z)), H, map_map.
  rewrite <- seq_shift, map_map. apply map_ext. intros k. f_equal. lia.
Qed.

Lemma blank_pages_parts (resp : OCRResponse) :
  Forall (fun p => images_or_empty p = []) (pages resp) ->
  Forall (fun p => markdown p = None \/ markdown p = Some []) (pages resp) ->
  md_parts_of resp = map page_header (pages resp).
Proof.
  rewrite md_parts_of_pages.
  induction 1 as [|p ps Hims _ IH]; intros Hblank; [reflexivity|].
  inversion Hblank as [|? ? Hp Hps]; subst.
  cbn [flat_map map]. rewrite (IH Hps).
  unfold page_parts, images_part, text_part. rewrite Hims.
  destruct Hp as [-> | ->]; reflexivity.
Qed.

End MarkdownHeadings.

(** ** The DOCX renderer as a log of calls *)

Section DocxFacts.

Variable docx_raises : DocCall -> option str.

Lemma logs_ret : logs (ret tt) [] (Ok tt).
Proof. intros doc. unfold ret. now rewrite app_nil_r. Qed.

Lemma logs_call (c : DocCall) :
  logs (doc_call docx_raises c) [call_event docx_raises c] (call_result docx_raises c).
Proof.
  intros doc. unfold doc_call, call_event, call_result.
  destruct (docx_raises c); reflexivity.
Qed.

Lemma logs_bind (m k : M DocxDocument unit) (e1 e2 : list DocEvent)
    (r : result unit) :
  logs m e1 (Ok tt) -> logs k e2 r -> logs (m ;; k) (e1 ++ e2) r.
Proof.
  intros Hm Hk doc. unfold bind. rewrite Hm, Hk, <- app_assoc. reflexivity.
Qed.

Lemma logs_raise (m k : M DocxDocument unit) (e1 : list DocEvent) (e : exn) :
  logs m e1 (Raise e) -> logs (m ;; k) e1 (Raise e).
Proof. intros Hm doc. unfold bind. now rewrite Hm. Qed.

Lemma call_result_render (c : DocCall) : render_result (call_result docx_raises c).
Proof. unfold call_result. destruct (docx_raises c); exact I || reflexivity. Qed.

Lemma call_returned (c : DocCall) :
  call_result docx_raises c = Ok tt -> call_event docx_raises c = Returned c.
Proof.
  unfold call_result, call_event. destruct (docx_raises c); [discriminate | reflexivity].
Qed.

(** The paragraphs: one call per line, up to the first that raises. *)
Lemma paragraphs_log (ls : list str) :
  exists evs res,
    logs (for_each (fun line => doc_call docx_raises (add_paragraph line)) ls) evs res
    /\ render_result res
    /\ (exists k, map call_of evs = firstn k (map add_paragraph ls))
    /\ (res = Ok tt -> evs = map Returned (map add_paragraph ls)).
Proof.
  induction ls as [|l ls [evs [res [Hlog [Hres [[k Hk] Hok]]]]]]; cbn [for_each].
  - exists [], (Ok tt). split; [exact logs_ret|]. split; [exact I|].
    split; [now exists 0%nat | reflexivity].
  - pose proof (logs_call (add_paragraph l)) as Hcall.
    destruct (call_result docx_raises (add_paragraph l)) as [[]|e] eqn:Hr.
    + exists (call_event docx_raises (add_paragraph l) :: evs), res.
      rewrite (call_returned _ Hr) in *.
      split; [exact (logs_bind _ _ _ _ _ Hcall Hlog)|]. split; [exact Hres|]. split.
      * exists (S k). cbn [map firstn call_of]. now rewrite Hk.
      * intros E. cbn [map]. now rewrite (Hok E).
    + exists [call_event docx_raises (add_paragraph l)], (Raise e).
      split; [exact (logs_raise _ _ _ _ Hcall)|]. split.
      * pose proof (call_result_render (add_paragraph l)) as H. now rewrite Hr in H.
      * split; [|discriminate]. exists 1%nat. cbn [map firstn].
        unfold call_event. destruct (docx_raises (add_paragraph l)); reflexivity.
Qed.

Lemma a2b_loop_error (data : list byte) :
  forall q lc p out e,
    a2b_base64_loop q lc p out data = Raise e -> render_error e = true.
Proof.
  induction data as [|c data IH]; intros q lc p out e; cbn [a2b_base64_loop].
  - destruct (q =? 0)%N; [discriminate|].
    destruct (q =? 1)%N; intros [= <-]; reflexivity.
  - destruct (Byte.eqb c BASE64_PAD).
    + destruct (2 <=? q)%N; [destruct (4 <=? q + (p + 1))%N; [discriminate|]|]; apply IH.
    + destruct (a2b c); [|apply IH].
      destruct (q =? 0)%N; [apply IH|].
      destruct (q =? 1)%N; [apply IH|].
      destruct (q =? 2)%N; apply IH.
Qed.

Lemma encode_ascii_error (s : str) (e : exn) :
  encode_ascii s = Raise e -> render_error e = true.
Proof.
  induction s as [|c s IH]; cbn [encode_ascii]; [discriminate|].
  destruct (c <? 128)%N.
  - destruct (encode_ascii s); [discriminate|]. intros [= <-]. now apply IH.
  - intros [= <-]. reflexivity.
Qed.

Lemma b64decode_error (s : str) (e : exn) :
  b64decode s = Raise e -> render_error e = true.
Proof.
  unfold b64decode, a2b_base64.
  destruct (encode_ascii s) eqn:E.
  - apply a2b_loop_error.
  - intros [= <-]. now apply (encode_ascii_error s).
Qed.

(** One image adds only picture events, whatever the document so far. *)
Lemma embed_image_log (im : ImageResult) :
  exists evs res,
    logs (embed_image docx_raises im) evs res
    /\ forallb picture_event evs = true
    /\ render_result res.
Proof.
  unfold embed_image.
  destruct (image_base64 im) as [[|c b64]|].
  1,3: exists [], (Ok tt); split; [exact logs_ret | split; [reflexivity | exact I]].
  unfold logs, bind, lift, try_except, doc_call.
  destruct (b64decode (c :: b64)) as [bio|e] eqn:E.
  - destruct (docx_raises (add_picture bio (Some (Inches 6)))) as [d1|].
    + destruct (docx_raises (add_picture bio None)) as [d2|].
      * exists [Failed (add_picture bio (Some (Inches 6))); Failed (add_picture bio None)],
          (Raise (CollaboratorError d2)).
        repeat split. intros doc. now rewrite <- app_assoc.
      * exists [Failed (add_picture bio (Some (Inches 6))); Returned (add_picture bio None)],
          (Ok tt).
        repeat split. intros doc. now rewrite <- app_assoc.
    + exists [Returned (add_picture bio (Some (Inches 6)))], (Ok tt). repeat split.
  - exists [], (Raise e). repeat split.
    + intros doc. now rewrite app_nil_r.
    + cbn. now apply (b64decode_error (c :: b64)).
Qed.

Lemma for_each_images_log (ims : list ImageResult) :
  exists evs res,
    logs (for_each (embed_image docx_raises) ims) evs res
    /\ forallb picture_event evs = true
    /\ render_result res.
Proof.
  induction ims as [|im ims [evs [res [IH [Hpics Hres]]]]]; cbn [for_each].
  - exists [], (Ok tt). split; [exact logs_ret | split; [reflexivity | exact I]].
  - destruct (embed_image_log im) as [evs1 [res1 [H1 [Hpics1 Hres1]]]].
    destruct res1 as [[]|e].
    + exists (evs1 ++ evs), res. split; [exact (logs_bind _ _ _ _ _ H1 IH)|].
      split; [|exact Hres]. now rewrite forallb_app, Hpics1, Hpics.
    + exists evs1, (Raise e). split; [exact (logs_raise _ _ _ _ H1)|].
      split; [exact Hpics1 | exact Hres1].
Qed.

Lemma body_app (d1 d2 : DocxDocument) : body (d1 ++ d2) = body d1 ++ body d2.
Proof. unfold body. apply flat_map_app. Qed.

Lemma body_returned (cs : list DocCall) : body (map Returned cs) = cs.
Proof.
  unfold body. induction cs as [|c cs IH]; [reflexivity|].
  cbn [map flat_map returned app]. now rewrite IH.
Qed.

Lemma body_pictures (evs : list DocEvent) :
  forallb picture_event evs = true -> forallb is_picture (body evs) = true.
Proof.
  unfold body. induction evs as [|ev evs IH]; [reflexivity|].
  cbn [forallb flat_map]. intros H. apply andb_prop in H as [Hev Hevs].
  rewrite forallb_app, (IH Hevs), andb_true_r.
  destruct ev as [c|c]; cbn [returned forallb]; [|reflexivity].
  unfold picture_event in Hev. cbn [call_of] in Hev. now rewrite Hev.
Qed.

Lemma no_paragraph_in_pictures (evs : list DocEvent) :
  forallb picture_event evs = true -> filter is_paragraph (map call_of evs) = [].
Proof.
  induction evs as [|ev evs IH]; [reflexivity|].
  cbn [forallb map filter]. intros H. apply andb_prop in H as [Hev Hevs].
  rewrite (IH Hevs). unfold picture_event in Hev.
  destruct (call_of ev); try discriminate. reflexivity.
Qed.

Lemma filter_paragraphs (ls : list str) (k : nat) :
  filter is_paragraph (firstn k (map add_paragraph ls))
  = firstn k (map add_paragraph ls).
Proof.
  revert k. induction ls as [|l ls IH]; intros [|k]; try reflexivity.
  cbn [map firstn filter is_paragraph]. now rewrite IH.
Qed.

(** The text of a page: a paragraph call per line. *)
Lemma page_text_lines (p : PageResult) :
  match markdown p with
  | Some ((_ :: _) as text) =>
      for_each (fun line => doc_call docx_raises (add_paragraph line)) (splitlines text)
  | _ => ret tt
  end
  = for_each (fun line => doc_call docx_raises (add_paragraph line)) (page_lines p).
Proof. unfold page_lines. destruct (markdown p) as [[|c text]|]; reflexivity. Qed.

(** One page: the heading, a paragraph per line, the picture events and the
    page break, up to the first call that raises. *)
Lemma render_page_log (p : PageResult) :
  exists evs res,
    logs (render_page docx_raises p) evs res
    /\ render_result res
    /\ (exists k,
          filter is_paragraph (map call_of evs)
          = firstn k (map add_paragraph (page_lines p)))
    /\ (res = Ok tt ->
        exists pics,
          forallb is_picture pics = true /\ body evs = page_section p pics).
Proof.
  unfold render_page. rewrite page_text_lines. fold (page_title p).
  pose proof (logs_call (page_title p)) as Htitle.
  destruct (call_result docx_raises (page_title p)) as [[]|e] eqn:Rtitle.
  2:{ exists [call_event docx_raises (page_title p)], (Raise e).
      split; [exact (logs_raise _ _ _ _ Htitle)|]. split.
      - pose proof (call_result_render (page_title p)) as H. now rewrite Rtitle in H.
      - split; [|discriminate]. exists 0%nat. cbn [map filter firstn].
        unfold call_event. destruct (docx_raises (page_title p)); reflexivity. }
  rewrite (call_returned _ Rtitle) in Htitle.
  destruct (paragraphs_log (page_lines p)) as [evsT [resT [HT [HresT [[k Hk] HokT]]]]].
  assert (Hpar : filter is_paragraph (map call_of evsT)
                 = firstn k (map add_paragraph (page_lines p))).
  { rewrite Hk. apply filter_paragraphs. }
  destruct resT as [[]|e].
  2:{ exists ([Returned (page_title p)] ++ evsT), (Raise e).
      split; [exact (logs_bind _ _ _ _ _ Htitle (logs_raise _ _ _ _ HT))|].
      split; [exact HresT|]. split; [|discriminate].
      exists k. rewrite map_app, filter_app, Hpar. reflexivity. }
  destruct (for_each_images_log (images_or_empty p)) as [evsI [resI [HI [Hpics HresI]]]].
  pose proof (no_paragraph_in_pictures evsI Hpics) as HparI.
  destruct resI as [[]|e].
  2:{ exists ([Returned (page_title p)] ++ evsT ++ evsI), (Raise e).
      split; [exact (logs_bind _ _ _ _ _ Htitle
                       (logs_bind _ _ _ _ _ HT (logs_raise _ _ _ _ HI)))|].
      split; [exact HresI|]. split; [|discriminate].
      exists k. rewrite !map_app, !filter_app, Hpar, HparI, app_nil_r. reflexivity. }
  pose proof (logs_call add_page_break) as Hbreak.
  exists ([Returned (page_title p)] ++ evsT ++ evsI ++ [call_event docx_raises add_page_break]),
    (call_result docx_raises add_page_break).
  split; [exact (logs_bind _ _ _ _ _ Htitle
                   (logs_bind _ _ _ _ _ HT (logs_bind _ _ _ _ _ HI Hbreak)))|].
  split; [apply call_result_render|]. split.
  - exists k. rewrite !map_app, !filter_app, Hpar, HparI.
    unfold call_event.
    destruct (docx_raises add_page_break);
      cbn [map filter call_of page_title is_paragraph app];
      now rewrite app_nil_r.
  - intros Hok. rewrite (call_returned _ Hok). exists (body evsI).
    split; [now apply body_pictures|].
    rewrite (HokT eq_refl), !body_app, body_returned. reflexivity.
Qed.

(** All pages: when nothing raises, the document is one section per page. *)
Lemma render_pages_log (ps : list PageResult) :
  exists evs res,
    logs (for_each (render_page docx_raises) ps) evs res
    /\ render_result res
    /\ (res = Ok tt ->
        exists pics,
          Forall2 (fun p pic => forallb is_picture pic = true) ps pics
          /\ body evs = flat_map (fun pp => page_section (fst pp) (snd pp)) (combine ps pics)).
Proof.
  induction ps as [|p ps [evs [res [IH [Hres Hbody]]]]]; cbn [for_each].
  - exists [], (Ok tt). split; [exact logs_ret|]. split; [exact I|].
    intros _. exists []. split; [constructor | reflexivity].
  - destruct (render_page_log p) as [evs1 [res1 [H1 [Hres1 [_ Hsec]]]]].
    destruct res1 as [[]|e].
    + exists (evs1 ++ evs), res. split; [exact (logs_bind _ _ _ _ _ H1 IH)|].
      split; [exact Hres|].
      intros Hok. destruct (Hbody Hok) as [pics [HF Hb]].
      destruct (Hsec eq_refl) as [pic [Hpic Hb1]].
      exists (pic :: pics). split; [constructor; assumption|].
      rewrite body_app, Hb, Hb1. reflexivity.
    + exists evs1, (Raise e). split; [exact (logs_raise _ _ _ _ H1)|].
      split; [exact Hres1 | discriminate].
Qed.

End DocxFacts.

(** ** Lines of a text *)

Section Splitlines.

Lemma splitlines_from_free (n : nat) :
  forall s cur,
    (List.length s <= n)%nat -> no_linebreak cur = true ->
    Forall (fun l => no_linebreak l = true) (splitlines_from cur s).
Proof.
  assert (Hrev : forall cur, no_linebreak cur = true -> no_linebreak (rev cur) = true).
  { intros cur H. unfold no_linebreak in *. rewrite forallb_forall in *.
    intros c Hc. apply H. now apply in_rev. }
  induction n as [|n IH]; intros s cur Hlen Hcur.
  - destruct s; [|simpl in Hlen; lia]. cbn [splitlines_from].
    destruct cur; constructor; [now apply Hrev | constructor].
  - destruct s as [|c rest]; cbn [splitlines_from].
    + destruct cur; constructor; [now apply Hrev | constructor].
    + cbn [List.length] in Hlen. destruct (is_linebreak c) eqn:Hc.
      * constructor; [now apply Hrev|].
        destruct rest as [|c' rest']; [apply IH; [simpl; lia | reflexivity]|].
        cbn [List.length] in Hlen.
        destruct ((c =? 13)%N && (c' =? 10)%N); apply IH;
          cbn [List.length]; try lia; reflexivity.
      * apply IH; [lia|]. unfold no_linebreak in *. cbn [forallb].
        now rewrite Hc, Hcur.
Qed.

Lemma splitlines_free (s : str) :
  Forall (fun l => no_linebreak l = true) (splitlines s).
Proof. apply (splitlines_from_free (List.length s)); [lia | reflexivity]. Qed.

Lemma splitlines_from_line (l : str) :
  forall cur rest,
    no_linebreak l = true ->
    splitlines_from cur (l ++ nl :: rest) = (rev cur ++ l) :: splitlines_from [] rest.
Proof.
  induction l as [|c l IH]; intros cur rest Hl; cbn [app splitlines_from].
  - change (is_linebreak nl) with true. cbv iota. rewrite app_nil_r.
    destruct rest; reflexivity.
  - unfold no_linebreak in Hl. cbn [forallb] in Hl. apply andb_prop in Hl as [Hc Hl].
    apply negb_true_iff in Hc. rewrite Hc, (IH (c :: cur) rest Hl).
    cbn [rev]. now rewrite <- app_assoc.
Qed.

Lemma splitlines_from_last (l : str) :
  forall cur,
    no_linebreak l = true ->
    splitlines_from cur l = match rev cur ++ l with [] => [] | _ :: _ => [rev cur ++ l] end.
Proof.
  induction l as [|c l IH]; intros cur Hl; cbn [splitlines_from].
  - rewrite app_nil_r. destruct cur as [|x cur]; [reflexivity|].
    destruct (rev (x :: cur)) eqn:E; [|reflexivity].
    apply (f_equal (@List.length _)) in E. rewrite length_rev in E. discriminate.
  - unfold no_linebreak in Hl. cbn [forallb] in Hl. apply andb_prop in Hl as [Hc Hl].
    apply negb_true_iff in Hc. rewrite Hc, (IH (c :: cur) Hl).
    cbn [rev]. now rewrite <- app_assoc.
Qed.

(** [splitlines] undoes a join of lines on [\n]. *)
Lemma splitlines_join (ls : list str) :
  Forall (fun l => no_linebreak l = true) ls ->
  last ls [nl] <> [] ->
  splitlines (join [nl] ls) = ls.
Proof.
  unfold splitlines.
  induction 1 as [|l ls Hl Hls IH]; intros Hlast; [reflexivity|].
  cbn [join]. destruct ls as [|l2 ls].
  - cbn [last] in Hlast. rewrite (splitlines_from_last l [] Hl). cbn [rev app].
    destruct l; [contradiction | reflexivity].
  - cbn [app]. rewrite (splitlines_from_line l [] _ Hl). cbn [rev app].
    f_equal. apply IH. exact Hlast.
Qed.

End Splitlines.

Section DocxSections.

Variable docx_raises : DocCall -> option str.

Lemma filter_breaks_section (p : PageResult) (pic : list DocCall) :
  forallb is_picture pic = true ->
  filter is_page_break (page_section p pic) = [add_page_break].
Proof.
  intros Hpic. unfold page_section. cbn [filter page_title is_page_break].
  rewrite !filter_app.
  replace (filter is_page_break (map add_paragraph (page_lines p))) with (@nil DocCall).
  - replace (filter is_page_break pic) with (@nil DocCall); [reflexivity|].
    symmetry. induction pic as [|c pic IH]; [reflexivity|].
    cbn [forallb] in Hpic. apply andb_prop in Hpic as [Hc Hpic].
    cbn [filter]. destruct c; try discriminate. now apply IH.
  - symmetry. induction (page_lines p) as [|l ls IH]; [reflexivity|exact IH].
Qed.

Lemma filter_breaks_sections (ps : list PageResult) (pics : list (list DocCall)) :
  Forall2 (fun p pic => forallb is_picture pic = true) ps pics ->
  List.length
    (filter is_page_break
       (flat_map (fun pp => page_section (fst pp) (snd pp)) (combine ps pics)))
  = List.length ps.
Proof.
  induction 1 as [|p pic ps pics Hpic _ IH]; [reflexivity|].
  cbn [combine flat_map fst snd]. rewrite filter_app, length_app, IH.
  now rewrite filter_breaks_section.
Qed.

Lemma filter_paragraphs_section (p : PageResult) (pic : list DocCall) :
  forallb is_picture pic = true ->
  filter is_paragraph (page_section p pic) = map add_paragraph (page_lines p).
Proof.
  intros Hpic. unfold page_section. cbn [filter page_title is_paragraph].
  rewrite !filter_app. cbn [filter is_paragraph].
  replace (filter is_paragraph pic) with (@nil DocCall).
  - rewrite !app_nil_r. induction (page_lines p) as [|l ls IH]; [reflexivity|].
    cbn [map filter is_paragraph]. now rewrite IH.
  - symmetry. induction pic as [|c pic IH]; [reflexivity|].
    cbn [forallb] in Hpic. apply andb_prop in Hpic as [Hc Hpic].
    cbn [filter]. destruct c; try discriminate. now apply IH.
Qed.

Lemma docx_bytes_sections (resp : OCRResponse) (d : list DocCall) :
  response_to_docx_bytes true docx_raises resp = Ok d ->
  exists pics,
    Forall2 (fun p pic => forallb is_picture pic = true) (pages resp) pics
    /\ d = flat_map (fun pp => page_section (fst pp) (snd pp)) (combine (pages resp) pics).
Proof.
  unfold response_to_docx_bytes, render_pages. cbn [negb].
  destruct (render_pages_log docx_raises (pages resp)) as [evs [res [Hlog [_ Hbody]]]].
  rewrite Hlog. cbn [app]. destruct res as [[]|e]; [|discriminate].
  intros [= <-]. apply Hbody. reflexivity.
Qed.

End DocxSections.

(** ** The script *)

Ltac assoc_right :=
  repeat match goal with
         | |- context [(?a ++ ?b) ++ ?c] => rewrite <- (app_assoc a b c)
         end.

Section ScriptFacts.

Variable HAS_PYTHON_DOCX : bool.
Variable docx_raises : DocCall -> option str.
Variable Mistral : str -> str -> bool -> result OCRResponse.
Variable polls : nat.

Lemma progress_loop_log (n : nat) :
  forall pct st,
    progress_loop n pct st
    = ({| session_state := session_state st;
          screen := screen st ++ progress_widgets n pct |}, Ok tt).
Proof.
  induction n as [|n IH]; intros pct st; cbn [progress_loop progress_widgets].
  - unfold ret. rewrite app_nil_r. now destruct st.
  - unfold bind, show. cbn [session_state screen]. rewrite IH.
    cbn [session_state screen]. rewrite <- !app_assoc. reflexivity.
Qed.

Lemma right_column_log (st : App) :
  right_column st
  = ({| session_state := session_state st;
        screen := screen st ++ right_widgets (session_state st) |}, Ok tt).
Proof.
  unfold right_column, right_widgets, bind, get_session, show.
  destruct st as [[m d] scr]. cbn [session_state screen md docx_bytes].
  destruct m as [text|]; [|reflexivity].
  destruct d as [doc|]; cbn [session_state screen]; unfold ret;
    cbn [session_state screen]; assoc_right; reflexivity.
Qed.

Lemma data_url_total (pdf_bytes : list byte) :
  pdf_bytes_to_data_url pdf_bytes
  = Ok (py "data:application/pdf;base64," ++ map Byte.to_N (b64encode pdf_bytes)).
Proof.
  unfold pdf_bytes_to_data_url.
  now rewrite (decode_utf8_ascii (b64encode_ascii pdf_bytes)).
Qed.

(** The conversion when the OCR call returns. *)
Lemma convert_returned (key : str) (pdf_bytes : list byte) (docx : bool)
    (resp : OCRResponse) (st : App) :
  run_ocr (Mistral key) pdf_bytes true = Ok resp ->
  let text := response_to_markdown resp in
  let shown := screen st ++ waiting_widgets polls ++ done_widgets in
  convert HAS_PYTHON_DOCX docx_raises Mistral polls key pdf_bytes docx st
  = if docx then
      if negb HAS_PYTHON_DOCX then
        ({| session_state := {| md := Some text; docx_bytes := None |};
            screen := shown ++ [st_error missing_docx_message] |},
         Raise RerunException)
      else
        match response_to_docx_bytes HAS_PYTHON_DOCX docx_raises resp with
        | Ok doc =>
            ({| session_state := {| md := Some text; docx_bytes := Some doc |};
                screen := shown |}, Raise RerunException)
        | Raise e =>
            ({| session_state := {| md := Some text; docx_bytes := None |};
                screen := shown |}, Raise e)
        end
    else
      ({| session_state := {| md := Some text; docx_bytes := None |};
          screen := shown |}, Raise RerunException).
Proof.
  intros Hocr text shown. subst text shown.
  unfold convert. cbv zeta.
  unfold bind, try_except, lift, show, set_session, ret.
  cbn [session_state screen]. rewrite progress_loop_log, Hocr.
  cbn [session_state screen md docx_bytes].
  destruct docx; [destruct (negb HAS_PYTHON_DOCX);
                  [|destruct (response_to_docx_bytes HAS_PYTHON_DOCX docx_raises resp)]|];
    cbn [session_state screen md docx_bytes]; assoc_right;
    unfold waiting_widgets, done_widgets, missing_docx_message; cbn [app];
    reflexivity.
Qed.

(** The conversion when the OCR call raises. *)
Lemma convert_raised (key : str) (pdf_bytes : list byte) (docx : bool)
    (e : exn) (st : App) :
  run_ocr (Mistral key) pdf_bytes true = Raise e ->
  convert HAS_PYTHON_DOCX docx_raises Mistral polls key pdf_bytes docx st
  = ({| session_state := {| md := None; docx_bytes := None |};
        screen := screen st ++ waiting_widgets polls ++ failure_widgets e
                  ++ done_widgets |},
     Raise (NameError (py "resp"))).
Proof.
  intros Hocr.
  unfold convert. cbv zeta.
  unfold bind, try_except, lift, show, set_session, ret.
  cbn [session_state screen]. rewrite progress_loop_log, Hocr.
  cbn [session_state screen md docx_bytes]. assoc_right.
  unfold waiting_widgets, failure_widgets, done_widgets. cbn [app]. reflexivity.
Qed.

End ScriptFacts.

(** ** Images without data *)

Section ImageFacts.

Variable docx_raises : DocCall -> option str.

Lemma append_images_app (p : PageResult) (ims1 ims2 : list ImageResult) :
  forall i md_parts,
    append_images p i (ims1 ++ ims2) md_parts
    = append_images p (i + Z.of_nat (List.length ims1)) ims2
        (append_images p i ims1 md_parts).
Proof.
  induction ims1 as [|im ims1 IH]; intros i md_parts.
  - cbn [app append_images List.length]. now rewrite Z.add_0_r.
  - cbn [app append_images List.length]. rewrite IH. f_equal. lia.
Qed.

Lemma image_parts_lacking (p : PageResult) (ims : list ImageResult) :
  forallb lacks_data ims = true -> forall i, image_parts p i ims = [].
Proof.
  induction ims as [|im ims IH]; intros H i; [reflexivity|].
  cbn [forallb] in H. apply andb_prop in H as [Him Hims].
  cbn [image_parts]. rewrite (IH Hims). unfold image_part.
  unfold lacks_data in Him. destruct (image_base64 im) as [[|c b]|];
    [reflexivity | discriminate | reflexivity].
Qed.

Lemma embed_image_lacking (im : ImageResult) (doc : DocxDocument) :
  lacks_data im = true -> embed_image docx_raises im doc = (doc, Ok tt).
Proof.
  unfold lacks_data, embed_image.
  destruct (image_base64 im) as [[|c b]|]; [reflexivity | discriminate | reflexivity].
Qed.

Lemma for_each_lacking (ims : list ImageResult) :
  forallb lacks_data ims = true ->
  forall doc, for_each (embed_image docx_raises) ims doc = (doc, Ok tt).
Proof.
  induction ims as [|im ims IH]; intros H doc; [reflexivity|].
  cbn [forallb] in H. apply andb_prop in H as [Him Hims].
  cbn [for_each]. unfold bind. rewrite (embed_image_lacking im doc Him).
  now apply IH.
Qed.

(** A page whose images all lack data renders as the page without images. *)
Lemma render_page_drop_images (p : PageResult) :
  forallb lacks_data (images_or_empty p) = true ->
  forall doc,
    render_page docx_raises p doc = render_page docx_raises (drop_images p) doc.
Proof.
  intros Hims doc. unfold render_page, bind. cbn [drop_images index markdown].
  destruct (doc_call docx_raises
              (add_heading (py "Page " ++ str_of_int (index p + 1)) 2) doc)
    as [d1 [[]|e]]; [|reflexivity].
  destruct (match markdown p with
            | Some ((_ :: _) as text) =>
                for_each (fun line => doc_call docx_raises (add_paragraph line))
                  (splitlines text)
            | _ => ret tt
            end d1) as [d2 [[]|e]]; [|reflexivity].
  now rewrite (for_each_lacking _ Hims).
Qed.

Lemma render_pages_drop_images (ps : list PageResult) :
  Forall (fun p => forallb lacks_data (images_or_empty p) = true) ps ->
  forall doc,
    for_each (render_page docx_raises) ps doc
    = for_each (render_page docx_raises) (map drop_images ps) doc.
Proof.
  induction 1 as [|p ps Hp _ IH]; intros doc; [reflexivity|].
  cbn [map for_each]. unfold bind. rewrite (render_page_drop_images p Hp).
  destruct (render_page docx_raises (drop_images p) doc) as [d [[]|e]];
    [apply IH | reflexivity].
Qed.

Lemma for_each_app {S A : Type} (f : A -> M S unit) (l1 l2 : list A) (s : S) :
  for_each f (l1 ++ l2) s = (for_each f l1 ;; for_each f l2) s.
Proof.
  revert s. induction l1 as [|a l1 IH]; intros s; cbn [app for_each].
  - reflexivity.
  - unfold bind in *. destruct (f a s) as [s' [[]|e]]; [apply IH | reflexivity].
Qed.

End ImageFacts.

(** C5: an image entry without data (absent or empty) adds nothing to either
    rendering and raises nothing: the Markdown renderer appends no fragment
    for it (the later images keep their numbers), the DOCX renderer leaves
    the document as it is and goes on, and a response in which no image
    has data renders as the same response without images. *)
Theorem image_without_data_skipped
    (docx_raises : DocCall -> option str) (im : ImageResult) :
  lacks_data im = true ->
  (forall p i, image_part p i im = [])
  /\ (forall p i ims1 ims2 md_parts,
        append_images p i (ims1 ++ im :: ims2) md_parts
        = append_images p (i + Z.of_nat (List.length ims1) + 1) ims2
            (append_images p i ims1 md_parts))
  /\ (forall doc, embed_image docx_raises im doc = (doc, Ok tt))
  /\ (forall ims1 ims2 doc,
        for_each (embed_image docx_raises) (ims1 ++ im :: ims2) doc
        = for_each (embed_image docx_raises) (ims1 ++ ims2) doc)
  /\ (forall has_docx resp,
        Forall (fun p => forallb lacks_data (images_or_empty p) = true) (pages resp) ->
        response_to_docx_bytes has_docx docx_raises resp
        = response_to_docx_bytes has_docx docx_raises
            {| pages := map drop_images (pages resp) |}).
Proof.
  intros Him. split; [|split; [|split; [|split]]].
  - intros p i. unfold image_part. unfold lacks_data in Him.
    destruct (image_base64 im) as [[|c b]|];
      [reflexivity | discriminate | reflexivity].
  - intros p i ims1 ims2 md_parts. rewrite append_images_app.
    cbn [append_images]. unfold lacks_data in Him.
    destruct (image_base64 im) as [[|c b]|];
      [reflexivity | discriminate | reflexivity].
  - intros doc. now apply embed_image_lacking.
  - intros ims1 ims2 doc. rewrite !for_each_app. unfold bind.
    destruct (for_each (embed_image docx_raises) ims1 doc) as [d [[]|e]];
      [|reflexivity].
    cbn [for_each]. unfold bind. now rewrite embed_image_lacking.
  - intros has_docx resp Hall. unfold response_to_docx_bytes, render_pages.
    cbn [pages]. now rewrite (render_pages_drop_images docx_raises _ Hall).
Qed.

Lemma image_without_data_skipped_witness :
  lacks_data image_without_data = true
  /\ forall doc, embed_image accepts_all image_without_data doc = (doc, Ok tt).
Proof.
  split; [reflexivity|].
  exact (proj1 (proj2 (proj2
           (image_without_data_skipped accepts_all image_without_data eq_refl)))).
Defined.

(** ** The Markdown renderer *)

(** C1 (as amended): for pages numbered 0..N-1 in input order, without
    images, and whose texts have no line that starts with [### Page], the
    lines of the Markdown output that start with [### Page] are exactly
    [### Page 1], ..., [### Page N], in this order; a page without text
    still gives its fragment with the rule and the heading, so that pages
    that are all without text give one such fragment each. *)
Theorem markdown_page_headings (resp : OCRResponse) :
  map index (pages resp) = map Z.of_nat (seq 0 (List.length (pages resp))) ->
  Forall (fun p => images_or_empty p = []) (pages resp) ->
  Forall (fun p => forall t, markdown p = Some t -> heading_lines t = [])
    (pages resp) ->
  heading_lines (response_to_markdown resp)
  = map (fun k => page_heading (Z.of_nat k)) (seq 1 (List.length (pages resp)))
  /\ (Forall (fun p => markdown p = None \/ markdown p = Some []) (pages resp) ->
      md_parts_of resp = map page_header (pages resp)).
Proof.
  intros Hidx Hims Htexts. split; [|apply (blank_pages_parts _ Hims)].
  rewrite <- (seq_headings page_heading _ Hidx).
  rewrite <- (heading_lines_parts _ Hims Htexts).
  unfold response_to_markdown, strip. rewrite md_parts_of_pages.
  change (py "\n") with [nl].
  assert (E : heading_lines (join [nl] (flat_map page_parts (pages resp)))
              = flat_map (fun part => filter (startswith (py "### Page")) (split_nl part))
                  (flat_map page_parts (pages resp))).
  { apply filter_lines_join. discriminate. }
  rewrite <- E, <- heading_lines_lstrip_join.
  apply filter_lines_rstrip; [discriminate | reflexivity |].
  intros l Hl. fold (heading_lines (lstrip (join [nl] (flat_map page_parts (pages resp))))) in Hl.
  rewrite heading_lines_lstrip_join, E, (heading_lines_parts _ Hims Htexts) in Hl.
  apply in_map_iff in Hl as [p [<- _]]. apply page_heading_tidy.
Qed.

Lemma markdown_page_headings_witness :
  heading_lines (response_to_markdown two_pages) = [py "### Page 1"; py "### Page 2"].
Proof.
  refine (proj1 (markdown_page_headings two_pages _ _ _)).
  - reflexivity.
  - repeat constructor.
  - repeat constructor; intros t [= <-]; reflexivity.
Defined.

(** C1 as stated fails: a page whose text is itself the heading line gives
    an output with two occurrences of [Page 1] and two heading lines. *)
Lemma markdown_page_headings_counterexample :
  map index (pages heading_in_text)
  = map Z.of_nat (seq 0 (List.length (pages heading_in_text)))
  /\ Forall (fun p => images_or_empty p = []) (pages heading_in_text)
  /\ response_to_markdown heading_in_text = py "---\n\n### Page 1\n\n\n### Page 1"
  /\ count_sub (py "Page 1") (response_to_markdown heading_in_text) = 2%nat
  /\ heading_lines (response_to_markdown heading_in_text)
     <> map (fun k => page_heading (Z.of_nat k))
          (seq 1 (List.length (pages heading_in_text))).
Proof.
  split; [reflexivity|]. split; [repeat constructor|].
  split; [reflexivity|]. split; [reflexivity|].
  vm_compute. discriminate.
Qed.

(** C9: the empty response gives the empty Markdown string and, with
    python-docx there, a document without any section. *)
Theorem empty_response_renders_nothing
    (docx_raises : DocCall -> option str) :
  response_to_markdown {| pages := [] |} = py ""
  /\ render_pages docx_raises {| pages := [] |} [] = ([], Ok tt)
  /\ response_to_docx_bytes true docx_raises {| pages := [] |} = Ok [].
Proof. repeat split. Qed.

Lemma images_part_lacking (p : PageResult) :
  images_or_empty p <> [] -> forallb lacks_data (images_or_empty p) = true ->
  images_part p = [py "\n\n#### Extracted images\n"].
Proof.
  intros Hne Hall. unfold images_part.
  destruct (images_or_empty p) as [|im ims]; [contradiction|].
  now rewrite (image_parts_lacking p (im :: ims) Hall).
Qed.

Lemma contains_strip (a b : str) :
  contains (py "#### Extracted images")
    (strip (a ++ py "\n\n#### Extracted images\n" ++ b)).
Proof.
  destruct (strip_keeps 35%N 115%N (a ++ [nl; nl]) (py "### Extracted image")
              (nl :: b) eq_refl eq_refl) as [a' [b' E]].
  rewrite <- app_assoc in E. exists a', b'. exact E.
Qed.

(** C10: a page with images, none of which has data, still gets the
    [#### Extracted images] subheading, and no image embed follows it. *)
Theorem subheading_without_embeds (resp : OCRResponse) (p : PageResult) :
  In p (pages resp) ->
  images_or_empty p <> [] ->
  forallb lacks_data (images_or_empty p) = true ->
  page_parts p = page_header p :: text_part p ++ [py "\n\n#### Extracted images\n"]
  /\ (exists before after,
        pages resp = before ++ p :: after
        /\ md_parts_of resp
           = md_parts_of {| pages := before |}
             ++ (page_header p :: text_part p ++ [py "\n\n#### Extracted images\n"])
             ++ md_parts_of {| pages := after |})
  /\ contains (py "#### Extracted images") (response_to_markdown resp).
Proof.
  intros Hin Hne Hall.
  assert (Hparts : page_parts p
                   = page_header p :: text_part p ++ [py "\n\n#### Extracted images\n"]).
  { unfold page_parts. now rewrite images_part_lacking. }
  split; [exact Hparts|]. split.
  - destruct (in_split _ _ Hin) as [before [after E]].
    exists before, after. split; [exact E|].
    rewrite !md_parts_of_pages, E. cbn [pages].
    rewrite flat_map_app. cbn [flat_map]. now rewrite Hparts.
  - unfold response_to_markdown. rewrite md_parts_of_pages.
    assert (Hsub : In (py "\n\n#### Extracted images\n")
                     (flat_map page_parts (pages resp))).
    { apply in_flat_map. exists p. split; [exact Hin|]. rewrite Hparts.
      right. apply in_or_app. right. now left. }
    destruct (join_in (py "\n") _ _ Hsub) as [a [b ->]].
    apply contains_strip.
Qed.

Lemma subheading_without_embeds_witness :
  contains (py "#### Extracted images")
    (response_to_markdown {| pages := [page_of_empty_images] |}).
Proof.
  refine (proj2 (proj2 (subheading_without_embeds
            {| pages := [page_of_empty_images] |} page_of_empty_images _ _ _))).
  - now left.
  - discriminate.
  - reflexivity.
Defined.

Lemma sections_end_with_break (ps : list PageResult) (pics : list (list DocCall)) :
  Forall2 (fun p pic => forallb is_picture pic = true) ps pics ->
  ps <> [] ->
  exists d',
    flat_map (fun pp => page_section (fst pp) (snd pp)) (combine ps pics)
    = d' ++ [add_page_break].
Proof.
  induction 1 as [|p pic ps pics _ HF IH]; [congruence|]. intros _.
  cbn [combine flat_map fst snd].
  destruct ps as [|q ps].
  - inversion HF; subst. cbn [combine flat_map]. rewrite app_nil_r.
    unfold page_section.
    exists (page_title p :: map add_paragraph (page_lines p) ++ pic).
    cbn [app]. now rewrite <- app_assoc.
  - destruct IH as [d' E]; [discriminate|]. rewrite E.
    exists (page_section p pic ++ d'). now rewrite app_assoc.
Qed.

(** C6: when the DOCX renderer returns a document, the document is one
    section per page, each closed by a page break with none inside it: as
    many page breaks as pages, the last call being the page break of the
    last page. *)
Theorem docx_one_page_break_per_page
    (HAS_PYTHON_DOCX : bool) (docx_raises : DocCall -> option str)
    (resp : OCRResponse) (d : list DocCall) :
  response_to_docx_bytes HAS_PYTHON_DOCX docx_raises resp = Ok d ->
  (exists pics,
     Forall2 (fun p pic => forallb is_picture pic = true) (pages resp) pics
     /\ d = flat_map (fun pp => page_section (fst pp) (snd pp))
              (combine (pages resp) pics))
  /\ List.length (filter is_page_break d) = List.length (pages resp)
  /\ (pages resp <> [] -> exists d', d = d' ++ [add_page_break]).
Proof.
  intros H. destruct HAS_PYTHON_DOCX; [|discriminate].
  destruct (docx_bytes_sections docx_raises resp d H) as [pics [HF ->]].
  split; [exists pics; split; [exact HF | reflexivity]|]. split.
  - now apply filter_breaks_sections.
  - now apply sections_end_with_break.
Qed.

Lemma docx_one_page_break_per_page_witness :
  response_to_docx_bytes true accepts_all two_pages
  = Ok [add_heading (py "Page 1") 2; add_paragraph (py "Hello");
        add_paragraph (py "World"); add_page_break;
        add_heading (py "Page 2") 2; add_page_break]
  /\ List.length
       (filter is_page_break
          [add_heading (py "Page 1") 2; add_paragraph (py "Hello");
           add_paragraph (py "World"); add_page_break;
           add_heading (py "Page 2") 2; add_page_break])
     = List.length (pages two_pages).
Proof.
  split; [reflexivity|].
  exact (proj1 (proj2 (docx_one_page_break_per_page true accepts_all two_pages _ eq_refl))).
Defined.

(** C7: the paragraph calls of a page with text are, in order, the lines
    of [text.splitlines()], one call per line, up to a call that raises;
    when the page is rendered they are all its paragraphs.  No line holds
    a line boundary, a text made of lines joined by [\n] gives back these
    lines, and [Hello\nWorld] without images gives the two paragraphs
    [Hello] and [World]. *)
Theorem docx_paragraphs_are_lines
    (docx_raises : DocCall -> option str) (p : PageResult) (text : str) :
  markdown p = Some text ->
  (forall doc, exists evs res,
     render_page docx_raises p doc = (doc ++ evs, res)
     /\ (exists k,
           filter is_paragraph (map call_of evs)
           = firstn k (map add_paragraph (splitlines text)))
     /\ (res = Ok tt ->
         filter is_paragraph (body evs) = map add_paragraph (splitlines text)))
  /\ Forall (fun l => no_linebreak l = true) (splitlines text)
  /\ (forall ls,
        Forall (fun l => no_linebreak l = true) ls -> last ls [nl] <> [] ->
        text = join (py "\n") ls -> splitlines text = ls)
  /\ (forall d,
        response_to_docx_bytes true docx_raises {| pages := [hello_world] |} = Ok d ->
        d = [add_heading (py "Page 1") 2; add_paragraph (py "Hello");
             add_paragraph (py "World"); add_page_break])
  /\ response_to_docx_bytes true accepts_all {| pages := [hello_world] |}
     = Ok [add_heading (py "Page 1") 2; add_paragraph (py "Hello");
           add_paragraph (py "World"); add_page_break].
Proof.
  intros Htext. split; [|split; [|split; [|split]]].
  - intros doc.
    destruct (render_page_log docx_raises p) as [evs [res [Hlog [_ [[k Hk] Hsec]]]]].
    unfold page_lines in Hk. rewrite Htext in Hk.
    exists evs, res. split; [apply Hlog|]. split; [now exists k|].
    intros Hok. destruct (Hsec Hok) as [pics [Hpics ->]].
    rewrite (filter_paragraphs_section p pics Hpics).
    unfold page_lines. now rewrite Htext.
  - apply splitlines_free.
  - intros ls Hls Hlast ->. now apply splitlines_join.
  - intros d H. vm_compute in H.
    repeat match type of H with
           | context [docx_raises ?c] => destruct (docx_raises c); cbv beta iota in H
           end;
      try discriminate.
    injection H as <-. vm_compute. reflexivity.
  - reflexivity.
Qed.

Lemma docx_paragraphs_are_lines_witness :
  markdown hello_world = Some (py "Hello\nWorld")
  /\ splitlines (py "Hello\nWorld") = [py "Hello"; py "World"]
  /\ Forall (fun l => no_linebreak l = true) (splitlines (py "Hello\nWorld")).
Proof.
  split; [reflexivity|]. split; [reflexivity|].
  exact (proj1 (proj2 (docx_paragraphs_are_lines accepts_all hello_world
                         (py "Hello\nWorld") eq_refl))).
Defined.

(** C3 (as amended): for an image whose data is present and decodes, when
    the embed at a width of 6 inches raises, the renderer makes exactly
    one more call, without a width; the first failure is not reported, and
    the outcome of the image is the outcome of that second call: the page
    goes on when it returns, its exception propagates when it raises. *)
Theorem sized_embed_failure_retried_once
    (docx_raises : DocCall -> option str)
    (im : ImageResult) (b64 : str) (bio : list byte) (detail : str) :
  image_base64 im = Some b64 -> b64 <> [] ->
  b64decode b64 = Ok bio ->
  docx_raises (add_picture bio (Some (Inches 6))) = Some detail ->
  forall doc,
    exists retry res,
      embed_image docx_raises im doc
      = (doc ++ [Failed (add_picture bio (Some (Inches 6))); retry], res)
      /\ List.length
           (filter is_unsized_attempt
              [Failed (add_picture bio (Some (Inches 6))); retry]) = 1%nat
      /\ (docx_raises (add_picture bio None) = None ->
          retry = Returned (add_picture bio None) /\ res = Ok tt)
      /\ (forall detail', docx_raises (add_picture bio None) = Some detail' ->
          retry = Failed (add_picture bio None)
          /\ res = Raise (CollaboratorError detail')).
Proof.
  intros Him Hne Hdec Hsized doc. unfold embed_image. rewrite Him.
  destruct b64 as [|c b64]; [contradiction|].
  unfold bind, lift, try_except, doc_call. rewrite Hdec, Hsized.
  destruct (docx_raises (add_picture bio None)) as [d2|].
  - exists (Failed (add_picture bio None)), (Raise (CollaboratorError d2)).
    rewrite <- app_assoc. split; [reflexivity|]. split; [reflexivity|]. split.
    + discriminate.
    + intros detail' [= <-]. split; reflexivity.
  - exists (Returned (add_picture bio None)), (Ok tt).
    rewrite <- app_assoc. split; [reflexivity|]. split; [reflexivity|]. split.
    + intros _. split; reflexivity.
    + discriminate.
Qed.

Lemma sized_embed_failure_retried_once_witness :
  embed_image cannot_size one_image []
  = ([Failed (add_picture [x41; x42; x43] (Some (Inches 6)));
      Returned (add_picture [x41; x42; x43] None)], Ok tt).
Proof.
  destruct (sized_embed_failure_retried_once cannot_size one_image
              (py "QUJD") [x41; x42; x43] (py "ZeroDivisionError")
              eq_refl ltac:(discriminate) eq_refl eq_refl [])
    as [retry [res [E [_ [Hok _]]]]].
  destruct (Hok eq_refl) as [-> ->]. exact E.
Defined.

(** C3 as stated fails: when python-docx takes the picture neither with
    nor without a width, the exception of the second call leaves the
    renderer and no document is made. *)
Lemma sized_embed_failure_retried_once_counterexample :
  image_base64 one_image = Some (py "QUJD")
  /\ b64decode (py "QUJD") = Ok [x41; x42; x43]
  /\ accepts_no_picture (add_picture [x41; x42; x43] (Some (Inches 6))) <> None
  /\ render_pages accepts_no_picture one_image_page []
     = ([Returned (add_heading (py "Page 1") 2);
         Failed (add_picture [x41; x42; x43] (Some (Inches 6)));
         Failed (add_picture [x41; x42; x43] None)],
        Raise (CollaboratorError (py "UnrecognizedImageError")))
  /\ response_to_docx_bytes true accepts_no_picture one_image_page
     = Raise (CollaboratorError (py "UnrecognizedImageError")).
Proof.
  split; [reflexivity|]. split; [reflexivity|]. split; [discriminate|].
  split; reflexivity.
Qed.

Section Outcomes.

Variable docx_raises : DocCall -> option str.

(** With python-docx there, the renderer raises only what decoding an
    image or adding a picture raises. *)
Lemma docx_bytes_errors (resp : OCRResponse) (e : exn) :
  response_to_docx_bytes true docx_raises resp = Raise e -> render_error e = true.
Proof.
  unfold response_to_docx_bytes, render_pages. cbn [negb].
  destruct (render_pages_log docx_raises (pages resp)) as [evs [res [Hlog [Hres _]]]].
  rewrite Hlog. destruct res as [[]|e']; [discriminate|].
  intros [= <-]. exact Hres.
Qed.

End Outcomes.

(** C2: without python-docx the DOCX renderer raises its own error, the
    one that tells to install python-docx, and with python-docx it never
    raises that one; a conversion that asks for DOCX then stores the same
    Markdown as one that does not, stores no DOCX, shows the install
    message after the same widgets, and the next run offers the Markdown
    for download. *)
Theorem missing_dependency_keeps_markdown
    (docx_raises : DocCall -> option str)
    (Mistral : str -> str -> bool -> result OCRResponse) (polls : nat)
    (c : char) (key : str) (pdf_bytes : list byte) (resp : OCRResponse) :
  run_ocr (Mistral (c :: key)) pdf_bytes true = Ok resp ->
  let session := {| md := Some (response_to_markdown resp); docx_bytes := None |} in
  (forall r, response_to_docx_bytes false docx_raises r = Raise missing_docx_error)
  /\ (forall r e, response_to_docx_bytes true docx_raises r = Raise e ->
                  e <> missing_docx_error)
  /\ (forall st,
        conversion_logic false docx_raises Mistral polls
          (ready (c :: key) pdf_bytes true) st
        = ({| session_state := session;
              screen := screen st ++ waiting_widgets polls ++ done_widgets
                        ++ [st_error missing_docx_message] |},
           Raise RerunException)
        /\ conversion_logic false docx_raises Mistral polls
             (ready (c :: key) pdf_bytes false) st
           = ({| session_state := session;
                 screen := screen st ++ waiting_widgets polls ++ done_widgets |},
              Raise RerunException))
  /\ missing_docx_message
     <> py "An unexpected error occurred while calling Mistral OCR."
  /\ right_column {| session_state := session; screen := [] |}
     = ({| session_state := session;
           screen := [st_subheader (py "Conversion Complete!");
                      download_button (py "Download Markdown (.md)")
                        (Utf8 (response_to_markdown resp))
                        (py "ocr_output.md") (py "text/markdown");
                      st_subheader (py "Preview (Markdown)");
                      st_markdown (response_to_markdown resp)] |},
        Ok tt).
Proof.
  intros Hocr session. split; [|split; [|split; [|split]]].
  - reflexivity.
  - intros r e H E. subst e. apply docx_bytes_errors in H. discriminate.
  - intros st. unfold conversion_logic, ready, bind, ret.
    cbn [run uploaded api_key want_docx].
    rewrite !(convert_returned false docx_raises Mistral polls _ _ _ resp st Hocr).
    cbn [negb]. split; [|reflexivity].
    f_equal. f_equal. now rewrite <- !app_assoc.
  - vm_compute. discriminate.
  - reflexivity.
Qed.

Lemma missing_dependency_keeps_markdown_witness :
  run_ocr (always_returns two_pages (py "k")) [x25; x50] true = Ok two_pages
  /\ conversion_logic false accepts_all (always_returns two_pages) 3
       (ready (py "k") [x25; x50] true) {| session_state := {| md := None; docx_bytes := None |}; screen := [] |}
     = ({| session_state := {| md := Some (response_to_markdown two_pages);
                               docx_bytes := None |};
           screen := waiting_widgets 3 ++ done_widgets
                     ++ [st_error missing_docx_message] |},
        Raise RerunException).
Proof.
  split; [reflexivity|].
  exact (proj1 (proj1 (proj2 (proj2
    (missing_dependency_keeps_markdown accepts_all (always_returns two_pages) 3
       107%N [] [x25; x50] two_pages eq_refl)))
    {| session_state := {| md := None; docx_bytes := None |}; screen := [] |})).
Defined.

(** C4: what the script does when the OCR call raises [e]: the session
    holds no Markdown and no DOCX, the error and [e] are shown, then the
    [Done!] status, and the run ends in the [NameError] of the unbound
    [resp], before the footer. *)
Theorem ocr_failure_ends_in_name_error
    (HAS_PYTHON_DOCX : bool) (docx_raises : DocCall -> option str)
    (polls : nat) (e : exn) (c : char) (key : str) (pdf_bytes : list byte)
    (docx : bool) (s : Session) :
  run_script HAS_PYTHON_DOCX docx_raises (always_raises e) polls
    (ready (c :: key) pdf_bytes docx) s
  = ({| session_state := {| md := None; docx_bytes := None |};
        screen := right_widgets s ++ waiting_widgets polls
                  ++ failure_widgets e ++ done_widgets |},
     Raise (NameError (py "resp"))).
Proof.
  unfold run_script, script, left_column, conversion_logic, ready.
  cbn [run uploaded api_key want_docx]. unfold bind at 1. unfold ret at 1.
  unfold bind at 1. rewrite right_column_log. cbn [session_state screen app].
  unfold bind, ret.
  rewrite (convert_raised HAS_PYTHON_DOCX docx_raises (always_raises e) polls
             (c :: key) pdf_bytes docx e).
  - reflexivity.
  - unfold run_ocr, always_raises. now rewrite data_url_total.
Qed.

(** * Further properties *)

(** ** The request encoder and the OCR call *)

Lemma b64decode_b64encode (data : list byte) :
  b64decode (map Byte.to_N (b64encode data)) = Ok data.
Proof.
  unfold b64decode, a2b_base64.
  rewrite (encode_ascii_ascii (b64encode_ascii data)).
  exact (a2b_loop_encode data [] 0 0 (le_n (List.length data))).
Qed.

Lemma b64encode_length (n : nat) :
  forall data,
    (List.length data <= n)%nat ->
    List.length (b64encode data) = (4 * ((List.length data + 2) / 3))%nat.
Proof.
  induction n as [|n IH]; intros data Hlen.
  - destruct data; [reflexivity | simpl in Hlen; lia].
  - destruct data as [|x1 [|x2 [|x3 rest]]]; try reflexivity.
    cbn [b64encode List.length]. rewrite IH by (simpl in Hlen; lia).
    replace (S (S (S (List.length rest))) + 2)%nat
      with (List.length rest + 2 + 1 * 3)%nat by lia.
    rewrite Nat.div_add by lia. lia.
Qed.

(** X1: two PDF files with the same data URL are the same file. *)
Theorem pdf_bytes_to_data_url_injective (a b : list byte) :
  pdf_bytes_to_data_url a = pdf_bytes_to_data_url b -> a = b.
Proof.
  rewrite !data_url_total. intros [= H].
  pose proof (b64decode_b64encode a) as Ha. rewrite H, b64decode_b64encode in Ha.
  now injection Ha.
Qed.

Lemma pdf_bytes_to_data_url_injective_witness :
  pdf_bytes_to_data_url [x25; x50] = pdf_bytes_to_data_url [x25; x50]
  /\ [x25; x50] = [x25; x50].
Proof.
  split; [reflexivity|].
  exact (pdf_bytes_to_data_url_injective [x25; x50] [x25; x50] eq_refl).
Defined.

(** X2: the data URL of [n] bytes is ASCII text of 28 + 4 * ceil(n / 3)
    characters. *)
Theorem pdf_bytes_to_data_url_shape (pdf_bytes : list byte) :
  exists url,
    pdf_bytes_to_data_url pdf_bytes = Ok url
    /\ List.length url = (28 + 4 * ((List.length pdf_bytes + 2) / 3))%nat
    /\ Forall (fun c => (c < 128)%N) url.
Proof.
  eexists. split; [apply data_url_total|]. split.
  - rewrite length_app, length_map, (b64encode_length (List.length pdf_bytes)) by lia.
    reflexivity.
  - apply Forall_app. split.
    + apply Forall_forall. intros c Hc.
      assert (Hall : forallb (fun c => (c <? 128)%N) (py "data:application/pdf;base64,") = true)
        by reflexivity.
      rewrite forallb_forall in Hall. now apply N.ltb_lt, Hall.
    + pose proof (b64encode_ascii pdf_bytes) as H.
      induction H; cbn [map]; constructor; assumption.
Qed.

(** X3: [run_ocr] hands the data URL of the file and the flag to the
    client and returns what the client returns or raises; it raises
    nothing of its own. *)
Theorem run_ocr_calls_client (client : str -> bool -> result OCRResponse)
    (pdf_bytes : list byte) (include_images : bool) :
  run_ocr client pdf_bytes include_images
  = client (py "data:application/pdf;base64," ++ map Byte.to_N (b64encode pdf_bytes))
      include_images
  /\ b64decode (skipn 28 (py "data:application/pdf;base64,"
                          ++ map Byte.to_N (b64encode pdf_bytes)))
     = Ok pdf_bytes.
Proof.
  split.
  - unfold run_ocr. now rewrite data_url_total.
  - change 28%nat with (List.length (py "data:application/pdf;base64,")).
    rewrite skipn_length_app. apply b64decode_b64encode.
Qed.

(** ** The API key *)


(** ** The Markdown output *)

Section StripFacts.

Lemma lstrip_suffix (s : str) : exists a, s = a ++ lstrip s.
Proof.
  induction s as [|c s [a IH]]; [now exists []|]. cbn [lstrip].
  destruct (is_space c); [|now exists []].
  exists (c :: a). cbn [app]. now rewrite <- IH.
Qed.

Lemma rstrip_prefix (s : str) : exists b, s = rstrip s ++ b.
Proof.
  unfold rstrip. destruct (lstrip_suffix (rev s)) as [a E].
  exists (rev a). rewrite <- rev_app_distr, <- E. now rewrite rev_involutive.
Qed.

Lemma lstrip_head (s : str) : lstrip s <> [] -> is_space (hd 0%N (lstrip s)) = false.
Proof.
  induction s as [|c s IH]; cbn [lstrip]; [congruence|].
  destruct (is_space c) eqn:E; [exact IH|]. intros _. exact E.
Qed.

Lemma lstrip_fixed (s : str) : is_space (hd 0%N s) = false -> lstrip s = s.
Proof. destruct s as [|c s]; [reflexivity|]. cbn [hd lstrip]. now intros ->. Qed.

Lemma rstrip_last (s : str) : rstrip s <> [] -> is_space (last (rstrip s) 0%N) = false.
Proof.
  unfold rstrip. intros H.
  assert (Hne : lstrip (rev s) <> []).
  { intros E. apply H. now rewrite E. }
  pose proof (lstrip_head (rev s) Hne) as Hh.
  destruct (lstrip (rev s)) as [|c r]; [congruence|].
  cbn [rev]. now rewrite last_last.
Qed.

(** [rstrip] keeps the first character of what it leaves. *)
Lemma rstrip_head (s : str) :
  is_space (hd 0%N s) = false -> rstrip s <> [] -> hd 0%N (rstrip s) = hd 0%N s.
Proof.
  intros _ Hne. destruct (rstrip_prefix s) as [b E].
  destruct (rstrip s) as [|c r]; [congruence|].
  rewrite E. reflexivity.
Qed.

Lemma rstrip_fixed (s : str) : is_space (last s 0%N) = false -> s <> [] -> rstrip s = s.
Proof.
  intros Hl Hne. unfold rstrip.
  destruct (exists_last Hne) as [a [c E]]. subst s.
  rewrite last_last in Hl. rewrite rev_app_distr. cbn [rev app lstrip].
  rewrite Hl. cbn [rev]. now rewrite rev_involutive.
Qed.

Lemma strip_ends (s : str) :
  strip s <> [] ->
  is_space (hd 0%N (strip s)) = false /\ is_space (last (strip s) 0%N) = false.
Proof.
  unfold strip. intros Hne. split; [|now apply rstrip_last].
  assert (Hl : lstrip s <> []).
  { intros E. apply Hne. now rewrite E. }
  pose proof (lstrip_head s Hl) as Hh.
  now rewrite rstrip_head.
Qed.

Lemma strip_idempotent (s : str) : strip (strip s) = strip s.
Proof.
  destruct (list_eq_dec N.eq_dec (strip s) []) as [E|Hne]; [now rewrite E|].
  destruct (strip_ends s Hne) as [Hh Hl].
  unfold strip at 1. rewrite (lstrip_fixed _ Hh). now apply rstrip_fixed.
Qed.

Lemma strip_middle (s : str) : exists a b, s = a ++ strip s ++ b.
Proof.
  unfold strip. destruct (lstrip_suffix s) as [a Ea].
  destruct (rstrip_prefix (lstrip s)) as [b Eb].
  exists a, b. now rewrite <- Eb.
Qed.

(** A fragment with no white space at its ends survives [strip]. *)
Lemma contains_strip_core (core x y : str) :
  core <> [] ->
  is_space (hd 0%N core) = false -> is_space (last core 0%N) = false ->
  contains core (strip (x ++ core ++ y)).
Proof.
  intros Hne Hh Hl. unfold strip.
  destruct core as [|c rest]; [congruence|]. cbn [hd] in Hh.
  destruct (lstrip_keeps c x (rest ++ y) Hh) as [x' Ex].
  cbn [app]. rewrite Ex.
  destruct (exists_last Hne) as [init [d Ed]].
  change (c :: rest ++ y) with ((c :: rest) ++ y). rewrite Ed in *.
  rewrite last_last in Hl.
  replace (x' ++ (init ++ [d]) ++ y) with ((x' ++ init) ++ d :: y)
    by (rewrite <- !app_assoc; reflexivity).
  destruct (rstrip_keeps d (x' ++ init) y Hl) as [y' Ey]. rewrite Ey.
  exists x', y'. rewrite <- !app_assoc. reflexivity.
Qed.

Lemma contains_nil (s : str) : contains [] s.
Proof. now exists [], s. Qed.

End StripFacts.

(** X5: the Markdown output has no white space at its ends: stripping it
    again changes nothing, and its first and last characters, when there
    are any, are not white space. *)
Theorem response_to_markdown_stripped (resp : OCRResponse) :
  strip (response_to_markdown resp) = response_to_markdown resp
  /\ (response_to_markdown resp <> [] ->
      is_space (hd 0%N (response_to_markdown resp)) = false
      /\ is_space (last (response_to_markdown resp) 0%N) = false).
Proof.
  unfold response_to_markdown. split; [apply strip_idempotent | apply strip_ends].
Qed.

(** X6: with at least one page, the output begins with the rule and the
    heading of the first page, whatever the page holds. *)
Theorem response_to_markdown_begins_with_rule (p : PageResult) (ps : list PageResult) :
  exists rest,
    response_to_markdown {| pages := p :: ps |}
    = py "---\n\n### Page " ++ str_of_int (index p + 1) ++ rest.
Proof.
  unfold response_to_markdown. rewrite md_parts_of_pages. cbn [pages flat_map].
  unfold page_parts at 1. cbn [app].
  destruct (join_cons (py "\n") (page_header p)
              ((text_part p ++ images_part p) ++ flat_map page_parts ps)) as [r ->].
  unfold strip.
  assert (El : lstrip (page_header p ++ r)
               = py "---\n\n### Page " ++ str_of_int (index p + 1) ++ py "\n\n" ++ r).
  { unfold page_header. rewrite <- !app_assoc. reflexivity. }
  rewrite El.
  destruct (exists_last (str_of_int_nonempty (index p + 1))) as [init [d Ed]].
  assert (Hd : is_space d = false).
  { apply decimal_not_space.
    pose proof (str_of_int_decimal (index p + 1)) as H. rewrite forallb_forall in H.
    apply H. rewrite Ed. apply in_or_app. right. now left. }
  rewrite Ed.
  replace (py "---\n\n### Page " ++ (init ++ [d]) ++ py "\n\n" ++ r)
    with ((py "---\n\n### Page " ++ init) ++ d :: py "\n\n" ++ r)
    by (rewrite <- !app_assoc; reflexivity).
  destruct (rstrip_keeps d (py "---\n\n### Page " ++ init) (py "\n\n" ++ r) Hd)
    as [r' ->].
  exists r'. rewrite <- !app_assoc. reflexivity.
Qed.

(** X7: the fragments are made page by page: those of two responses put
    end to end are the fragments of the first followed by those of the
    second. *)
Theorem md_parts_of_app (ps1 ps2 : list PageResult) :
  md_parts_of {| pages := ps1 ++ ps2 |}
  = md_parts_of {| pages := ps1 |} ++ md_parts_of {| pages := ps2 |}.
Proof. rewrite !md_parts_of_pages. cbn [pages]. apply flat_map_app. Qed.

Section MarkdownParts.

Lemma image_parts_nth (p : PageResult) (ims : list ImageResult) :
  forall (k : nat) (i : Z) (im : ImageResult) (c : char) (b64 : str),
    nth_error ims k = Some im -> image_base64 im = Some (c :: b64) ->
    In (image_embed p (i + Z.of_nat k) (c :: b64)) (image_parts p i ims).
Proof.
  induction ims as [|im0 ims IH]; intros [|k] i im c b64 Hnth Hdata;
    cbn [nth_error] in Hnth; try discriminate.
  - injection Hnth as ->. cbn [image_parts]. unfold image_part. rewrite Hdata.
    left. cbn [Z.of_nat]. now rewrite Z.add_0_r.
  - cbn [image_parts]. apply in_or_app. right.
    replace (i + Z.of_nat (S k))%Z with (i + 1 + Z.of_nat k)%Z by lia.
    now apply (IH k (i + 1)%Z im).
Qed.

Lemma image_parts_length (p : PageResult) (ims : list ImageResult) :
  forall i, List.length (image_parts p i ims) = List.length (data_of ims).
Proof.
  induction ims as [|im ims IH]; intros i; [reflexivity|].
  cbn [image_parts data_of flat_map]. rewrite !length_app. fold (data_of ims).
  rewrite (IH (i + 1)%Z). unfold image_part.
  destruct (image_base64 im) as [[|c b]|]; reflexivity.
Qed.

Lemma in_page_parts (resp : OCRResponse) (p : PageResult) (part : str) :
  In p (pages resp) -> In part (page_parts p) -> In part (md_parts_of resp).
Proof.
  intros Hp Hpart. rewrite md_parts_of_pages. apply in_flat_map. now exists p.
Qed.

Lemma image_embed_link (p : PageResult) (i : Z) (b64 : str) :
  image_embed p i b64 = [nl] ++ image_link p i b64 ++ [nl].
Proof. unfold image_embed, image_link. rewrite <- !app_assoc. reflexivity. Qed.

Lemma image_link_ends (p : PageResult) (i : Z) (b64 : str) :
  image_link p i b64 <> []
  /\ is_space (hd 0%N (image_link p i b64)) = false
  /\ is_space (last (image_link p i b64) 0%N) = false.
Proof.
  split; [discriminate|]. split; [reflexivity|].
  unfold image_link. rewrite !app_assoc.
  rewrite last_app_nonempty by discriminate. reflexivity.
Qed.

End MarkdownParts.

(** X8: the image at position [k] (from 0) of a page, when it has data,
    gives the embed captioned [page <index+1> image <k+1>] with its data
    as a PNG data URI: the images without data before it still count.
    The page gets as many embeds as it has images with data. *)
Theorem markdown_image_numbering (resp : OCRResponse) (p : PageResult) (k : nat)
    (im : ImageResult) (b64 : str) :
  In p (pages resp) ->
  nth_error (images_or_empty p) k = Some im ->
  image_base64 im = Some b64 -> b64 <> [] ->
  In (image_embed p (Z.of_nat k + 1) b64) (md_parts_of resp)
  /\ contains (image_link p (Z.of_nat k + 1) b64) (response_to_markdown resp)
  /\ (forall md_parts,
        List.length (append_images p 1 (images_or_empty p) md_parts)
        = (List.length md_parts + List.length (data_of (images_or_empty p)))%nat).
Proof.
  intros Hp Hnth Hdata Hne. destruct b64 as [|c b64]; [contradiction|].
  assert (Hin : In (image_embed p (Z.of_nat k + 1) (c :: b64)) (md_parts_of resp)).
  { apply (in_page_parts resp p); [exact Hp|]. unfold page_parts. right.
    apply in_or_app. right. unfold images_part.
    destruct (images_or_empty p) as [|im0 ims] eqn:E; [now destruct k|].
    right. rewrite Z.add_comm. now apply (image_parts_nth p (im0 :: ims) k 1 im). }
  split; [exact Hin|]. split.
  - unfold response_to_markdown.
    destruct (join_in (py "\n") _ _ Hin) as [a [b ->]].
    rewrite image_embed_link.
    destruct (image_link_ends p (Z.of_nat k + 1) (c :: b64)) as [H1 [H2 H3]].
    replace (a ++ ([nl] ++ image_link p (Z.of_nat k + 1) (c :: b64) ++ [nl]) ++ b)
      with ((a ++ [nl]) ++ image_link p (Z.of_nat k + 1) (c :: b64) ++ ([nl] ++ b))
      by (rewrite <- !app_assoc; reflexivity).
    now apply contains_strip_core.
  - intros md_parts. rewrite append_images_parts, length_app. f_equal.
    apply image_parts_length.
Qed.

Lemma markdown_image_numbering_witness :
  contains (py "![page 1 image 2](data:image/png;base64,QUJD)")
    (response_to_markdown
       {| pages := [{| index := 0; markdown := None;
                       images := Some [{| image_base64 := None |}; one_image] |}] |}).
Proof.
  refine (proj1 (proj2 (markdown_image_numbering
            {| pages := [{| index := 0; markdown := None;
                            images := Some [{| image_base64 := None |}; one_image] |}] |}
            {| index := 0; markdown := None;
               images := Some [{| image_base64 := None |}; one_image] |}
            1 one_image (py "QUJD") _ _ _ _))).
  - now left.
  - reflexivity.
  - reflexivity.
  - discriminate.
Defined.

(** X9: the text of a page is in the output as it is, but for the white
    space at its ends. *)
Theorem markdown_keeps_text (resp : OCRResponse) (p : PageResult) (t : str) :
  In p (pages resp) -> markdown p = Some t ->
  contains (strip t) (response_to_markdown resp).
Proof.
  intros Hp Ht.
  destruct (list_eq_dec N.eq_dec (strip t) []) as [E|Hne].
  { rewrite E. apply contains_nil. }
  destruct (strip_ends t Hne) as [Hh Hl].
  assert (Hin : In t (md_parts_of resp)).
  { apply (in_page_parts resp p); [exact Hp|]. unfold page_parts. right.
    apply in_or_app. left. unfold text_part. rewrite Ht.
    destruct t as [|c t]; [now elim Hne | now left]. }
  unfold response_to_markdown.
  destruct (join_in (py "\n") _ _ Hin) as [a [b ->]].
  destruct (strip_middle t) as [a' [b' Et]].
  remember (strip t) as core eqn:Ecore. rewrite Et.
  replace (a ++ (a' ++ core ++ b') ++ b)
    with ((a ++ a') ++ core ++ (b' ++ b))
    by (rewrite <- !app_assoc; reflexivity).
  now apply contains_strip_core.
Qed.

Lemma markdown_keeps_text_witness :
  contains (py "Hello\nWorld") (response_to_markdown two_pages).
Proof.
  refine (markdown_keeps_text two_pages
            {| index := 0; markdown := Some (py "Hello\nWorld"); images := None |}
            (py "Hello\nWorld") _ _).
  - now left.
  - reflexivity.
Defined.

(** ** The document that the DOCX renderer returns *)

Section DocxReturned.

Variable docx_raises : DocCall -> option str.

Lemma doc_call_ok (c : DocCall) (doc doc' : DocxDocument) (u : unit) :
  doc_call docx_raises c doc = (doc', Ok u) -> doc' = doc ++ [Returned c].
Proof.
  unfold doc_call. destruct (docx_raises c); [discriminate|]. now intros [= <-].
Qed.

Lemma paragraphs_ok (ls : list str) (doc doc' : DocxDocument) (u : unit) :
  for_each (fun line => doc_call docx_raises (add_paragraph line)) ls doc = (doc', Ok u) ->
  doc' = doc ++ map Returned (map add_paragraph ls).
Proof.
  destruct (paragraphs_log docx_raises ls) as [evs [res [Hlog [_ [_ Hok]]]]].
  rewrite Hlog. intros [= <- E]. destruct u. now rewrite (Hok E).
Qed.

Lemma pictures_of_nil : pictures_of [] [].
Proof. repeat split. Qed.

Lemma pictures_of_app (ims1 ims2 : list ImageResult) (pics1 pics2 : list DocCall) :
  pictures_of ims1 pics1 -> pictures_of ims2 pics2 ->
  pictures_of (ims1 ++ ims2) (pics1 ++ pics2).
Proof.
  intros [A1 [B1 C1]] [A2 [B2 C2]]. unfold pictures_of, data_of, picture_bytes in *.
  rewrite !forallb_app, !flat_map_app, !map_app, A1, A2, B1, B2, C1, C2.
  repeat split.
Qed.

Lemma embed_image_ok (im : ImageResult) (doc doc' : DocxDocument) (u : unit) :
  embed_image docx_raises im doc = (doc', Ok u) ->
  exists pics, body doc' = body doc ++ pics /\ pictures_of [im] pics.
Proof.
  unfold embed_image, pictures_of, data_of. cbn [flat_map].
  destruct (image_base64 im) as [[|c b64]|].
  1,3: unfold ret; intros [= <- _]; exists []; rewrite app_nil_r; repeat split.
  unfold bind, lift, try_except, doc_call.
  destruct (b64decode (c :: b64)) as [bio|e] eqn:E; [|discriminate].
  destruct (docx_raises (add_picture bio (Some (Inches 6)))).
  - destruct (docx_raises (add_picture bio None)); [discriminate|].
    intros [= <- _]. exists [add_picture bio None].
    rewrite !body_app. cbn. rewrite app_nil_r, E. repeat split.
  - intros [= <- _]. exists [add_picture bio (Some (Inches 6))].
    rewrite !body_app. cbn [body flat_map returned app forallb is_picture width_ok
                            picture_bytes map].
    rewrite Z.eqb_refl, E. repeat split.
Qed.

Lemma images_ok (ims : list ImageResult) :
  forall (doc doc' : DocxDocument) (u : unit),
    for_each (embed_image docx_raises) ims doc = (doc', Ok u) ->
    exists pics, body doc' = body doc ++ pics /\ pictures_of ims pics.
Proof.
  induction ims as [|im ims IH]; intros doc doc' u; cbn [for_each].
  - unfold ret. intros [= <- _]. exists []. rewrite app_nil_r.
    split; [reflexivity | exact pictures_of_nil].
  - unfold bind.
    destruct (embed_image docx_raises im doc) as [d1 [u1|e]] eqn:E1; [|discriminate].
    intros H. destruct (embed_image_ok im doc d1 u1 E1) as [p1 [B1 P1]].
    destruct (IH d1 doc' u H) as [p2 [B2 P2]].
    exists (p1 ++ p2). split; [now rewrite B2, B1, <- app_assoc|].
    exact (pictures_of_app [im] ims p1 p2 P1 P2).
Qed.

Lemma render_page_ok (p : PageResult) (doc doc' : DocxDocument) (u : unit) :
  render_page docx_raises p doc = (doc', Ok u) ->
  exists pics,
    body doc' = body doc ++ page_section p pics
    /\ pictures_of (images_or_empty p) pics.
Proof.
  unfold render_page. rewrite page_text_lines. fold (page_title p). unfold bind.
  destruct (doc_call docx_raises (page_title p) doc) as [d1 [u1|e]] eqn:E1;
    [|discriminate].
  destruct (for_each (fun line => doc_call docx_raises (add_paragraph line))
              (page_lines p) d1) as [d2 [u2|e]] eqn:E2; [|discriminate].
  destruct (for_each (embed_image docx_raises) (images_or_empty p) d2)
    as [d3 [u3|e]] eqn:E3; [|discriminate].
  intros E4.
  apply doc_call_ok in E1, E4. apply paragraphs_ok in E2.
  destruct (images_ok _ _ _ _ E3) as [pics [B3 P3]].
  exists pics. split; [|exact P3].
  rewrite E4, body_app, B3, E2, body_app, body_returned, E1, body_app.
  unfold page_section. cbn [body flat_map returned app].
  rewrite <- !app_assoc. reflexivity.
Qed.

Lemma render_pages_ok (ps : list PageResult) :
  forall (doc doc' : DocxDocument) (u : unit),
    for_each (render_page docx_raises) ps doc = (doc', Ok u) ->
    exists picss,
      Forall2 (fun p pics => pictures_of (images_or_empty p) pics) ps picss
      /\ body doc'
         = body doc
           ++ flat_map (fun pp => page_section (fst pp) (snd pp)) (combine ps picss).
Proof.
  induction ps as [|p ps IH]; intros doc doc' u; cbn [for_each].
  - unfold ret. intros [= <- _]. exists []. rewrite app_nil_r.
    split; [constructor | reflexivity].
  - unfold bind.
    destruct (render_page docx_raises p doc) as [d1 [u1|e]] eqn:E1; [|discriminate].
    intros H. destruct (render_page_ok p doc d1 u1 E1) as [pics [B1 P1]].
    destruct (IH d1 doc' u H) as [picss [HF B2]].
    exists (pics :: picss). split; [now constructor|].
    rewrite B2, B1, <- app_assoc. reflexivity.
Qed.

Lemma docx_bytes_pictures (resp : OCRResponse) (d : list DocCall) :
  response_to_docx_bytes true docx_raises resp = Ok d ->
  exists picss,
    Forall2 (fun p pics => pictures_of (images_or_empty p) pics) (pages resp) picss
    /\ d = flat_map (fun pp => page_section (fst pp) (snd pp)) (combine (pages resp) picss).
Proof.
  unfold response_to_docx_bytes, render_pages. cbn [negb].
  destruct (for_each (render_page docx_raises) (pages resp) []) as [doc [u|e]] eqn:E;
    [|discriminate].
  intros [= <-]. destruct (render_pages_ok _ _ _ _ E) as [picss [HF B]].
  exists picss. split; [exact HF | exact B].
Qed.

End DocxReturned.

Section SectionFacts.

Lemma picture_bytes_app (a b : list DocCall) :
  picture_bytes (a ++ b) = picture_bytes a ++ picture_bytes b.
Proof. apply flat_map_app. Qed.

Lemma picture_bytes_paragraphs (ls : list str) :
  picture_bytes (map add_paragraph ls) = [].
Proof. induction ls as [|l ls IH]; [reflexivity | exact IH]. Qed.

Lemma picture_bytes_section (p : PageResult) (pics : list DocCall) :
  picture_bytes (page_section p pics) = picture_bytes pics.
Proof.
  unfold page_section, page_title.
  change (add_heading (py "Page " ++ str_of_int (index p + 1)) 2
          :: map add_paragraph (page_lines p) ++ pics ++ [add_page_break])
    with ([add_heading (py "Page " ++ str_of_int (index p + 1)) 2]
          ++ map add_paragraph (page_lines p) ++ pics ++ [add_page_break]).
  rewrite !picture_bytes_app, picture_bytes_paragraphs. cbn. now rewrite app_nil_r.
Qed.

Lemma width_ok_section (p : PageResult) (pics : list DocCall) :
  forallb width_ok pics = true -> forallb width_ok (page_section p pics) = true.
Proof.
  intros H. unfold page_section, page_title. cbn [forallb width_ok andb].
  rewrite !forallb_app, H. cbn [forallb width_ok andb].
  rewrite andb_true_r. induction (page_lines p) as [|l ls IH]; [reflexivity | exact IH].
Qed.

Lemma pictures_count (pics : list DocCall) :
  List.length (filter is_picture pics) = List.length (picture_bytes pics).
Proof.
  induction pics as [|c pics IH]; [reflexivity|].
  cbn [filter picture_bytes flat_map]. fold (picture_bytes pics).
  destruct c; cbn [is_picture List.length app]; now rewrite IH.
Qed.

Lemma headings_section (p : PageResult) (pics : list DocCall) :
  forallb is_picture pics = true ->
  filter is_heading (page_section p pics) = [page_title p].
Proof.
  intros H. unfold page_section, page_title. cbn [filter is_heading].
  rewrite !filter_app. cbn [filter is_heading]. f_equal.
  replace (filter is_heading pics) with (@nil DocCall).
  - rewrite app_nil_r. induction (page_lines p) as [|l ls IH]; [reflexivity | exact IH].
  - symmetry. induction pics as [|c pics IH]; [reflexivity|].
    cbn [forallb] in H. apply andb_prop in H as [Hc H].
    cbn [filter]. destruct c; try discriminate. now apply IH.
Qed.

Lemma sections_pictures (ps : list PageResult) (picss : list (list DocCall)) :
  Forall2 (fun p pics => pictures_of (images_or_empty p) pics) ps picss ->
  let d := flat_map (fun pp => page_section (fst pp) (snd pp)) (combine ps picss) in
  map (@Ok (list byte)) (picture_bytes d)
  = map b64decode (flat_map (fun p => data_of (images_or_empty p)) ps)
  /\ forallb width_ok d = true
  /\ filter is_heading d = map page_title ps.
Proof.
  cbv zeta. induction 1 as [|p pics ps picss [A [B C]] _ [IH1 [IH2 IH3]]].
  - repeat split.
  - cbn [combine flat_map fst snd map].
    rewrite picture_bytes_app, picture_bytes_section, !map_app, C, IH1.
    rewrite forallb_app, (width_ok_section p pics B), IH2.
    rewrite filter_app, (headings_section p pics A), IH3.
    repeat split.
Qed.

(** With a python-docx none of whose calls raises, the pages are rendered
    when the data of the images decode. *)
Lemma render_pages_accepted (ps : list PageResult) :
  Forall (fun b64 => exists bio, b64decode b64 = Ok bio)
    (flat_map (fun p => data_of (images_or_empty p)) ps) ->
  forall doc, exists doc', for_each (render_page accepts_all) ps doc = (doc', Ok tt).
Proof.
  assert (Hims : forall ims,
            Forall (fun b64 => exists bio, b64decode b64 = Ok bio) (data_of ims) ->
            forall doc, exists doc',
              for_each (embed_image accepts_all) ims doc = (doc', Ok tt)).
  { induction ims as [|im ims IH]; intros H doc; [now exists doc|].
    cbn [for_each]. unfold bind, embed_image at 1.
    cbn [data_of flat_map] in H. fold (data_of ims) in H.
    destruct (image_base64 im) as [[|c b64]|].
    1,3: unfold ret; now apply IH.
    apply Forall_app in H as [H1 H2]. inversion H1 as [|? ? [bio E] _]; subst.
    unfold bind, lift, try_except, doc_call, accepts_all. rewrite E.
    now apply IH. }
  induction ps as [|p ps IH]; intros H doc; [now exists doc|].
  cbn [flat_map] in H. apply Forall_app in H as [Hp Hps].
  cbn [for_each]. unfold bind at 1.
  assert (Hpage : exists d1, render_page accepts_all p doc = (d1, Ok tt)).
  { unfold render_page. rewrite page_text_lines. unfold bind, doc_call at 1.
    cbn [accepts_all].
    destruct (paragraphs_log accepts_all (page_lines p))
      as [evs [res [Hlog [_ [_ _]]]]].
    assert (Hres : res = Ok tt).
    { clear -Hlog. revert evs res Hlog.
      induction (page_lines p) as [|l ls IHl]; intros evs res Hlog.
      - specialize (Hlog []). cbn in Hlog. now injection Hlog.
      - specialize (Hlog []). cbn [for_each] in Hlog. unfold bind, doc_call at 1 in Hlog.
        cbn [accepts_all] in Hlog.
        destruct (paragraphs_log accepts_all ls) as [evs' [res' [Hlog' _]]].
        rewrite Hlog' in Hlog. injection Hlog as _ <-. apply (IHl evs' res' Hlog'). }
    rewrite Hlog, Hres.
    destruct (Hims _ Hp (doc ++ [Returned (add_heading (py "Page " ++ str_of_int (index p + 1)) 2)] ++ evs))
      as [d3 E3].
    rewrite <- app_assoc, E3. unfold doc_call. cbn [accepts_all]. eexists. reflexivity. }
  destruct Hpage as [d1 ->]. now apply IH.
Qed.

End SectionFacts.

(** X10: the DOCX renderer returns a document only if the data of every
    image decodes as Base64, and with a python-docx none of whose calls
    raises it returns one exactly then: data that does not decode fails
    the whole document. *)
Theorem docx_returned_iff_images_decode (resp : OCRResponse) :
  let decodes :=
    Forall (fun b64 => exists bio, b64decode b64 = Ok bio)
      (flat_map (fun p => data_of (images_or_empty p)) (pages resp)) in
  (forall has_docx docx_raises d,
     response_to_docx_bytes has_docx docx_raises resp = Ok d -> decodes)
  /\ ((exists d, response_to_docx_bytes true accepts_all resp = Ok d) <-> decodes).
Proof.
  cbv zeta.
  assert (Hfwd : forall has_docx docx_raises d,
            response_to_docx_bytes has_docx docx_raises resp = Ok d ->
            Forall (fun b64 => exists bio, b64decode b64 = Ok bio)
              (flat_map (fun p => data_of (images_or_empty p)) (pages resp))).
  { intros has_docx docx_raises d H. destruct has_docx; [|discriminate].
    destruct (docx_bytes_pictures docx_raises resp d H) as [picss [HF _]].
    destruct (sections_pictures _ _ HF) as [Hb _].
    apply Forall_forall. intros b64 Hin.
    apply (in_map b64decode) in Hin. rewrite <- Hb in Hin.
    apply in_map_iff in Hin as [bio [E _]]. now exists bio. }
  split; [exact Hfwd|]. split.
  - intros [d H]. exact (Hfwd true accepts_all d H).
  - intros H. unfold response_to_docx_bytes, render_pages. cbn [negb].
    destruct (render_pages_accepted (pages resp) H []) as [doc' ->]. now eexists.
Qed.

(** X11: in a returned document the pictures are, in order, the decoded
    data of the images that have data, one picture per such image, each
    at a width of 6 inches or without a width. *)
Theorem docx_pictures_are_images
    (has_docx : bool) (docx_raises : DocCall -> option str)
    (resp : OCRResponse) (d : list DocCall) :
  response_to_docx_bytes has_docx docx_raises resp = Ok d ->
  map (@Ok (list byte)) (picture_bytes d)
  = map b64decode (flat_map (fun p => data_of (images_or_empty p)) (pages resp))
  /\ List.length (filter is_picture d)
     = List.length (flat_map (fun p => data_of (images_or_empty p)) (pages resp))
  /\ forallb width_ok d = true.
Proof.
  intros H. destruct has_docx; [|discriminate].
  destruct (docx_bytes_pictures docx_raises resp d H) as [picss [HF ->]].
  destruct (sections_pictures _ _ HF) as [Hb [Hw _]].
  split; [exact Hb|]. split; [|exact Hw].
  rewrite pictures_count. apply (f_equal (@List.length _)) in Hb.
  now rewrite !length_map in Hb.
Qed.

Lemma docx_pictures_are_images_witness :
  response_to_docx_bytes true cannot_size one_image_page
  = Ok [add_heading (py "Page 1") 2; add_picture [x41; x42; x43] None; add_page_break]
  /\ List.length
       (filter is_picture
          [add_heading (py "Page 1") 2; add_picture [x41; x42; x43] None; add_page_break])
     = 1%nat.
Proof.
  split; [reflexivity|].
  exact (proj1 (proj2 (docx_pictures_are_images true cannot_size one_image_page _ eq_refl))).
Defined.

(** X12: in a returned document the headings are, in page order, the
    level-2 headings [Page <index+1>], one per page. *)
Theorem docx_headings_are_pages
    (has_docx : bool) (docx_raises : DocCall -> option str)
    (resp : OCRResponse) (d : list DocCall) :
  response_to_docx_bytes has_docx docx_raises resp = Ok d ->
  filter is_heading d
  = map (fun p => add_heading (py "Page " ++ str_of_int (index p + 1)) 2) (pages resp).
Proof.
  intros H. destruct has_docx; [|discriminate].
  destruct (docx_bytes_pictures docx_raises resp d H) as [picss [HF ->]].
  now destruct (sections_pictures _ _ HF) as [_ [_ Hh]].
Qed.

Lemma docx_headings_are_pages_witness :
  filter is_heading
    [add_heading (py "Page 1") 2; add_paragraph (py "Hello");
     add_paragraph (py "World"); add_page_break;
     add_heading (py "Page 2") 2; add_page_break]
  = [add_heading (py "Page 1") 2; add_heading (py "Page 2") 2].
Proof.
  exact (docx_headings_are_pages true accepts_all two_pages _ eq_refl).
Defined.

(** ** Runs of the script *)

Section ScriptRuns.

Variable HAS_PYTHON_DOCX : bool.
Variable docx_raises : DocCall -> option str.
Variable Mistral : str -> str -> bool -> result OCRResponse.
Variable polls : nat.

Lemma left_column_log (inp : Inputs) (st : App) :
  left_column inp st
  = ({| session_state := session_state st;
        screen := screen st ++ left_widgets inp |}, Ok tt).
Proof.
  unfold left_column, left_widgets, truthy, show, ret.
  destruct (api_key inp) as [[|c k]|]; try reflexivity;
    rewrite app_nil_r; now destruct st.
Qed.

(** A run that does not convert leaves the session as it is. *)
Lemma script_idle (inp : Inputs) (s : Session) :
  ready_to_run inp = false ->
  run_script HAS_PYTHON_DOCX docx_raises Mistral polls inp s
  = ({| session_state := s;
        screen := left_widgets inp ++ right_widgets s ++ refusal_widgets inp
                  ++ [footer] |}, Ok tt).
Proof.
  intros Hready. unfold run_script, script.
  unfold bind at 1. rewrite left_column_log. cbn [session_state screen List.app].
  unfold bind at 1. rewrite right_column_log. cbn [session_state screen].
  unfold conversion_logic, refusal_widgets, ready_to_run, truthy in *.
  destruct (run inp); cbn [andb] in Hready.
  - destruct (uploaded inp) as [pdf|], (api_key inp) as [[|c k]|];
      try discriminate; unfold bind, show, ret; cbn [session_state screen];
      unfold left_widgets, truthy; assoc_right; reflexivity.
  - unfold bind, show, ret. cbn [session_state screen]. assoc_right.
    rewrite ?app_nil_r. reflexivity.
Qed.

(** A run that converts, when the OCR call returns. *)
Lemma script_converts (c : char) (key : str) (pdf_bytes : list byte) (docx : bool)
    (resp : OCRResponse) (s : Session) :
  run_ocr (Mistral (c :: key)) pdf_bytes true = Ok resp ->
  run_script HAS_PYTHON_DOCX docx_raises Mistral polls
    (ready (c :: key) pdf_bytes docx) s
  = convert HAS_PYTHON_DOCX docx_raises Mistral polls (c :: key) pdf_bytes docx
      {| session_state := s; screen := right_widgets s |}.
Proof.
  intros Hocr. unfold run_script, script.
  unfold bind at 1. rewrite left_column_log. cbn [session_state screen List.app].
  unfold bind at 1. rewrite right_column_log. cbn [session_state screen].
  unfold conversion_logic, ready. cbn [run uploaded api_key want_docx].
  unfold bind at 1. unfold bind at 1. unfold ret at 1. unfold bind at 1. unfold ret at 1.
  unfold left_widgets, truthy. cbn [api_key List.app].
  rewrite (convert_returned HAS_PYTHON_DOCX docx_raises Mistral polls
             (c :: key) pdf_bytes docx resp _ Hocr).
  destruct docx; [destruct (negb HAS_PYTHON_DOCX);
                  [|destruct (response_to_docx_bytes HAS_PYTHON_DOCX docx_raises resp)]|];
    reflexivity.
Qed.

Lemma percents_progress (n : nat) :
  forall pct,
    percents (progress_widgets n pct)
    = map (fun k => ((pct + 3 * Z.of_nat k) mod 100)%Z) (seq 1 n).
Proof.
  induction n as [|n IH]; intros pct; [reflexivity|].
  cbn [progress_widgets percents flat_map List.app seq map].
  fold (percents (progress_widgets n ((pct + 3) mod 100)%Z)).
  rewrite IH. apply f_equal2; [f_equal; lia|].
  rewrite <- (seq_shift n 1), map_map. apply map_ext. intros k.
  rewrite Zplus_mod_idemp_l. f_equal. lia.
Qed.

Lemma progress_widgets_length (n : nat) :
  forall pct, List.length (progress_widgets n pct) = (2 * n)%nat.
Proof.
  induction n as [|n IH]; intros pct; [reflexivity|].
  cbn [progress_widgets List.length]. rewrite IH. lia.
Qed.

End ScriptRuns.

(** X13: a run that does not convert (no click, no upload or no key)
    leaves the session as it was, calls no OCR, and reaches the footer
    after the warning, the earlier results and the refusals. *)
Theorem script_without_conversion
    (HAS_PYTHON_DOCX : bool) (docx_raises : DocCall -> option str)
    (Mistral : str -> str -> bool -> result OCRResponse) (polls : nat)
    (inp : Inputs) (s : Session) :
  ready_to_run inp = false ->
  run_script HAS_PYTHON_DOCX docx_raises Mistral polls inp s
  = ({| session_state := s;
        screen := left_widgets inp ++ right_widgets s ++ refusal_widgets inp
                  ++ [footer] |}, Ok tt).
Proof. apply script_idle. Qed.

Lemma script_without_conversion_witness :
  run_script true accepts_all (always_raises RerunException) 0
    {| api_key := None; uploaded := None; want_docx := true; run := true |}
    {| md := Some (py "old"); docx_bytes := None |}
  = ({| session_state := {| md := Some (py "old"); docx_bytes := None |};
        screen :=
          left_widgets {| api_key := None; uploaded := None; want_docx := true; run := true |}
          ++ right_widgets {| md := Some (py "old"); docx_bytes := None |}
          ++ [st_error (py "Please upload a PDF first.");
              st_error (py "No API key found. Add it to Streamlit Secrets or your environment.");
              footer] |}, Ok tt).
Proof.
  exact (script_without_conversion true accepts_all (always_raises RerunException) 0
           {| api_key := None; uploaded := None; want_docx := true; run := true |}
           {| md := Some (py "old"); docx_bytes := None |} eq_refl).
Defined.

(** X14: when the OCR call returns and the DOCX is asked for, there and
    rendered, the run stores the Markdown and the document, whatever the
    session held before, and asks for a rerun; the run that follows
    offers both for download. *)
Theorem script_stores_both_results
    (docx_raises : DocCall -> option str)
    (Mistral : str -> str -> bool -> result OCRResponse) (polls : nat)
    (c : char) (key : str) (pdf_bytes : list byte)
    (resp : OCRResponse) (doc : list DocCall) (s : Session) :
  run_ocr (Mistral (c :: key)) pdf_bytes true = Ok resp ->
  response_to_docx_bytes true docx_raises resp = Ok doc ->
  let stored := {| md := Some (response_to_markdown resp); docx_bytes := Some doc |} in
  run_script true docx_raises Mistral polls (ready (c :: key) pdf_bytes true) s
  = ({| session_state := stored;
        screen := right_widgets s ++ waiting_widgets polls ++ done_widgets |},
     Raise RerunException)
  /\ run_script true docx_raises Mistral polls (idle (Some (c :: key))) stored
     = ({| session_state := stored;
           screen :=
             [st_subheader (py "Conversion Complete!");
              download_button (py "Download Markdown (.md)")
                (Utf8 (response_to_markdown resp))
                (py "ocr_output.md") (py "text/markdown");
              download_button (py "Download Word (.docx)") (DocxFile doc)
                (py "ocr_output.docx")
                (py "application/vnd.openxmlformats-officedocument.wordprocessingml.document");
              st_subheader (py "Preview (Markdown)");
              st_markdown (response_to_markdown resp);
              footer] |}, Ok tt).
Proof.
  intros Hocr Hdocx stored. split.
  - rewrite (script_converts true docx_raises Mistral polls c key pdf_bytes true resp s Hocr).
    rewrite (convert_returned true docx_raises Mistral polls _ _ _ resp _ Hocr).
    cbn [negb]. rewrite Hdocx. reflexivity.
  - rewrite script_idle by reflexivity. reflexivity.
Qed.

Lemma script_stores_both_results_witness :
  run_script true accepts_all (always_returns two_pages) 2
    (ready (py "k") [x25; x50] true) {| md := Some (py "old"); docx_bytes := None |}
  = ({| session_state :=
          {| md := Some (response_to_markdown two_pages);
             docx_bytes :=
               Some [add_heading (py "Page 1") 2; add_paragraph (py "Hello");
                     add_paragraph (py "World"); add_page_break;
                     add_heading (py "Page 2") 2; add_page_break] |};
        screen := right_widgets {| md := Some (py "old"); docx_bytes := None |}
                  ++ waiting_widgets 2 ++ done_widgets |},
     Raise RerunException).
Proof.
  exact (proj1 (script_stores_both_results accepts_all (always_returns two_pages) 2
                  107%N [] [x25; x50] two_pages _
                  {| md := Some (py "old"); docx_bytes := None |} eq_refl eq_refl)).
Defined.

(** X15: when the DOCX renderer raises in a conversion, the exception
    ends the run: no rerun is asked and no footer shown, the Markdown of
    this conversion is stored and no document is. *)
Theorem script_docx_failure_keeps_markdown
    (docx_raises : DocCall -> option str)
    (Mistral : str -> str -> bool -> result OCRResponse) (polls : nat)
    (c : char) (key : str) (pdf_bytes : list byte)
    (resp : OCRResponse) (e : exn) (s : Session) :
  run_ocr (Mistral (c :: key)) pdf_bytes true = Ok resp ->
  response_to_docx_bytes true docx_raises resp = Raise e ->
  run_script true docx_raises Mistral polls (ready (c :: key) pdf_bytes true) s
  = ({| session_state := {| md := Some (response_to_markdown resp); docx_bytes := None |};
        screen := right_widgets s ++ waiting_widgets polls ++ done_widgets |},
     Raise e).
Proof.
  intros Hocr Hdocx.
  rewrite (script_converts true docx_raises Mistral polls c key pdf_bytes true resp s Hocr).
  rewrite (convert_returned true docx_raises Mistral polls _ _ _ resp _ Hocr).
  cbn [negb]. rewrite Hdocx. reflexivity.
Qed.

Lemma script_docx_failure_keeps_markdown_witness :
  run_script true accepts_no_picture (always_returns one_image_page) 0
    (ready (py "k") [x25; x50] true) {| md := None; docx_bytes := None |}
  = ({| session_state := {| md := Some (response_to_markdown one_image_page);
                            docx_bytes := None |};
        screen := right_widgets {| md := None; docx_bytes := None |}
                  ++ waiting_widgets 0 ++ done_widgets |},
     Raise (CollaboratorError (py "UnrecognizedImageError"))).
Proof.
  exact (script_docx_failure_keeps_markdown accepts_no_picture
           (always_returns one_image_page) 0 107%N [] [x25; x50] one_image_page
           (CollaboratorError (py "UnrecognizedImageError"))
           {| md := None; docx_bytes := None |} eq_refl eq_refl).
Defined.

(** X16: while it waits, the script shows a progress value and the status
    at each poll; the value of poll [k] is [3 k mod 100], so it stays
    below 100 and wraps around instead of reaching it. *)
Theorem progress_loop_values (polls : nat) (st : App) :
  exists shown,
    progress_loop polls 0 st
    = ({| session_state := session_state st; screen := screen st ++ shown |}, Ok tt)
    /\ List.length shown = (2 * polls)%nat
    /\ percents shown = map (fun k => ((3 * Z.of_nat k) mod 100)%Z) (seq 1 polls)
    /\ Forall (fun pct => (0 <= pct < 100)%Z) (percents shown).
Proof.
  exists (progress_widgets polls 0). split; [apply progress_loop_log|].
  split; [apply progress_widgets_length|].
  assert (E : percents (progress_widgets polls 0)
              = map (fun k => ((3 * Z.of_nat k) mod 100)%Z) (seq 1 polls)).
  { rewrite percents_progress. apply map_ext. intros k. reflexivity. }
  split; [exact E|]. rewrite E. apply Forall_forall. intros pct Hin.
  apply in_map_iff in Hin as [k [<- _]]. apply Z.mod_pos_bound. lia.
Qed.

(** X17: what the DOCX renderer raises is the missing-library error when
    python-docx is not there and, when it is, only the errors of decoding
    the data of an image ([ValueError], [binascii.Error]) and the
    exceptions of python-docx. *)
Theorem docx_renderer_errors
    (has_docx : bool) (docx_raises : DocCall -> option str)
    (resp : OCRResponse) (e : exn) :
  response_to_docx_bytes has_docx docx_raises resp = Raise e ->
  (has_docx = false /\ e = missing_docx_error)
  \/ (has_docx = true /\ render_error e = true).
Proof.
  intros H. destruct has_docx.
  - right. split; [reflexivity|]. exact (docx_bytes_errors docx_raises resp e H).
  - left. split; [reflexivity|]. now injection H.
Qed.

Lemma docx_renderer_errors_witness :
  response_to_docx_bytes true accepts_all
    {| pages := [{| index := 0; markdown := None;
                    images := Some [{| image_base64 := Some (py "TQ=") |}] |}] |}
  = Raise (BinasciiError (py "Incorrect padding"))
  /\ ((true = false /\ BinasciiError (py "Incorrect padding") = missing_docx_error)
      \/ (true = true /\ render_error (BinasciiError (py "Incorrect padding")) = true)).
Proof.
  split; [reflexivity|].
  exact (docx_renderer_errors true accepts_all
           {| pages := [{| index := 0; markdown := None;
                           images := Some [{| image_base64 := Some (py "TQ=") |}] |}] |}
           (BinasciiError (py "Incorrect padding")) eq_refl).
Defined.
